(** * Printful client: request construction and envelope normalisation

    A shallow embedding of the implemented endpoint methods of
    [PrintfulAcountClient] (the account client) and of [MockupGeneratorAPI]
    (lib/mockup-generator.ts), together with the fragment of JavaScript they
    rely on: JSON values, string conversion, truthiness, the [>=] comparison,
    [JSON.stringify], [URLSearchParams] and [fetch].

    Conventions of the model.
    - A JavaScript string is a [string] of bytes holding its UTF-8 encoding.
    - A JavaScript number is an integer [Z].  The model is exact on the
      safe integers (magnitude below 2^53), which JavaScript holds exactly
      and prints in plain decimal; fractions, infinities and the integers
      JavaScript prints with an exponent (from 10^21) cannot be written in
      it.  [None] stands for NaN where a conversion yields it.  Where the
      text of a number, or the number read from a text, is what a statement
      is about, the statement carries the matching hypothesis.
    - An object is the list of its own properties in enumeration order. *)

From Stdlib Require Import ZArith List String Ascii Bool Lia DecimalString.
Import ListNotations.
Open Scope string_scope.
Open Scope Z_scope.

Set Implicit Arguments.
Set Warnings "-register-all".

(* ------------------------------------------------------------------ *)
(** ** JavaScript values *)

Inductive value : Type :=
| JUndefined
| JNull
| JBool (b : bool)
| JNum (n : Z)
| JStr (s : string)
| JArr (items : list value)
| JObj (props : list (string * value)).

Module JS.

(** The integers JavaScript represents exactly:
    [Number.isSafeInteger(n)]. *)
Definition safe_integer (n : Z) : bool :=
  (- 2 ^ 53 <? n) && (n <? 2 ^ 53).

(** [String(n)]: the plain decimal text of [n].  This is JavaScript's text
    for every safe integer; from 10^21 JavaScript prints an exponent
    ([1e+21]), which the model does not. *)
Definition number_to_string (n : Z) : string :=
  NilZero.string_of_int (Z.to_int n).

Fixpoint join (sep : string) (parts : list string) : string :=
  match parts with
  | [] => ""
  | [p] => p
  | p :: rest => p ++ sep ++ join sep rest
  end.

(** [ToString(ToPrimitive(v))]: the text a value contributes to a string
    concatenation.  An array is joined with commas, [null] and [undefined]
    elements giving the empty text; a plain object prints as
    [[object Object]]. *)
Fixpoint to_string (v : value) : string :=
  match v with
  | JUndefined => "undefined"
  | JNull => "null"
  | JBool true => "true"
  | JBool false => "false"
  | JNum n => number_to_string n
  | JStr s => s
  | JArr items =>
      join "," (map (fun x => match x with
                              | JUndefined | JNull => ""
                              | _ => to_string x
                              end) items)
  | JObj _ => "[object Object]"
  end.

(** The binary [+] with a string on the left. *)
Definition concat (s : string) (v : value) : string := s ++ to_string v.

(** [ToBoolean]. *)
Definition truthy (v : value) : bool :=
  match v with
  | JUndefined | JNull => false
  | JBool b => b
  | JNum n => negb (n =? 0)
  | JStr s => negb (String.eqb s "")
  | JArr _ | JObj _ => true
  end.

(** [a || b] on values. *)
Definition or (a b : value) : value := if truthy a then a else b.

(** A default parameter [x = d]: the default replaces [undefined] only. *)
Definition default_param (x d : value) : value :=
  match x with JUndefined => d | _ => x end.

Definition digit_of (c : ascii) : option Z :=
  let n := Z.of_N (N_of_ascii c) in
  if (48 <=? n) && (n <=? 57) then Some (n - 48) else None.

Fixpoint digits_value (acc : Z) (s : string) : option Z :=
  match s with
  | EmptyString => Some acc
  | String c rest =>
      match digit_of c with
      | Some d => digits_value (10 * acc + d) rest
      | None => None
      end
  end.

(** [StringToNumber] on the integer fragment: the empty text is [0], an
    optionally signed run of decimal digits is its value, anything else is
    read as NaN.  JavaScript also trims white space and reads fractions,
    exponents, the [0x], [0o], [0b] forms and [Infinity]; on such texts
    ([" 404 "], ["4e2"]) the model differs from it, so no statement below
    rests on the number read from a text: where the branch on [code]
    matters, [code] is a number or is missing. *)
Definition string_to_number (s : string) : option Z :=
  match s with
  | EmptyString => Some 0
  | String "-" (String _ _ as ds) => option_map Z.opp (digits_value 0 ds)
  | String "+" (String _ _ as ds) => digits_value 0 ds
  | _ => digits_value 0 s
  end.

(** [ToNumber]; [None] is NaN. *)
Definition to_number (v : value) : option Z :=
  match v with
  | JUndefined => None
  | JNull => Some 0
  | JBool true => Some 1
  | JBool false => Some 0
  | JNum n => Some n
  | JStr _ | JArr _ | JObj _ => string_to_number (to_string v)
  end.

(** [v >= n] against a numeric literal: false as soon as [v] is NaN. *)
Definition ge (v : value) (n : Z) : bool :=
  match to_number v with
  | Some x => n <=? x
  | None => false
  end.

(** Lookup of an own property in a property list. *)
Fixpoint assoc (k : string) (props : list (string * value)) : value :=
  match props with
  | [] => JUndefined
  | (k', v) :: rest => if String.eqb k k' then v else assoc k rest
  end.

(** [v.k] for the property names the client reads ([result], [code],
    [error], [paging], [items], [success], [sync_product],
    [sync_variants]): none of them lives on a prototype, so every value
    other than an object answers [undefined]. *)
Definition get (v : value) (k : string) : value :=
  match v with
  | JObj props => assoc k props
  | _ => JUndefined
  end.

(** [RequireObjectCoercible]: destructuring [null] or [undefined] is a
    TypeError. *)
Definition object_coercible (v : value) : bool :=
  match v with
  | JUndefined | JNull => false
  | _ => true
  end.

End JS.

(* ------------------------------------------------------------------ *)
(** ** Text encodings used on the wire *)

Module Wire.

Definition hex_digit (upper : bool) (d : N) : ascii :=
  if (d <? 10)%N then ascii_of_N (48 + d)
  else ascii_of_N ((if upper then 55 else 87) + d).

Definition hex_byte (upper : bool) (c : ascii) : string :=
  let n := N_of_ascii c in
  String (hex_digit upper (n / 16)) (String (hex_digit upper (n mod 16)) "").

Definition dquote : ascii := ascii_of_N 34.
Definition backslash : ascii := ascii_of_N 92.

(** One character of a JSON string literal, as [JSON.stringify] quotes it. *)
Definition json_escape (c : ascii) : string :=
  let n := N_of_ascii c in
  if (n =? 34)%N then String backslash (String dquote "")
  else if (n =? 92)%N then String backslash (String backslash "")
  else if (n =? 8)%N then String backslash "b"
  else if (n =? 9)%N then String backslash "t"
  else if (n =? 10)%N then String backslash "n"
  else if (n =? 12)%N then String backslash "f"
  else if (n =? 13)%N then String backslash "r"
  else if (n <? 32)%N then String backslash ("u00" ++ hex_byte false c)
  else String c "".

Fixpoint json_escape_all (s : string) : string :=
  match s with
  | EmptyString => ""
  | String c rest => json_escape c ++ json_escape_all rest
  end.

Definition json_quote (s : string) : string :=
  String dquote (json_escape_all s ++ String dquote "").

(** [JSON.stringify(v)]; [None] is the [undefined] it answers for
    [undefined].  Inside an array [undefined] is written [null]; inside an
    object a property holding [undefined] is left out. *)
Fixpoint stringify (v : value) : option string :=
  match v with
  | JUndefined => None
  | JNull => Some "null"
  | JBool true => Some "true"
  | JBool false => Some "false"
  | JNum n => Some (JS.number_to_string n)
  | JStr s => Some (json_quote s)
  | JArr items =>
      Some ("[" ++ JS.join ","
                     (map (fun x => match stringify x with
                                    | Some s => s
                                    | None => "null"
                                    end) items) ++ "]")
  | JObj props =>
      Some ("{" ++ JS.join ","
                     ((fix members (ps : list (string * value)) : list string :=
                         match ps with
                         | [] => []
                         | (k, x) :: rest =>
                             match stringify x with
                             | Some s => (json_quote k ++ ":" ++ s) :: members rest
                             | None => members rest
                             end
                         end) props) ++ "}")
  end.

(** The application/x-www-form-urlencoded byte serialiser: letters, digits
    and [* - . _] stay, a space becomes [+], every other byte is
    percent-encoded with upper-case hexadecimal digits. *)
Definition form_unreserved (c : ascii) : bool :=
  let n := N_of_ascii c in
  ((48 <=? n) && (n <=? 57) || (65 <=? n) && (n <=? 90)
   || (97 <=? n) && (n <=? 122)
   || (n =? 42) || (n =? 45) || (n =? 46) || (n =? 95))%N.

Definition form_encode_byte (c : ascii) : string :=
  if form_unreserved c then String c ""
  else if (N_of_ascii c =? 32)%N then "+"
  else String "%" (hex_byte true c).

Fixpoint form_encode (s : string) : string :=
  match s with
  | EmptyString => ""
  | String c rest => form_encode_byte c ++ form_encode rest
  end.

End Wire.

(** [URLSearchParams]: an ordered list of name/value pairs. *)
Module URLSearchParams.

Definition t := list (string * string).

(** [new URLSearchParams(init)] from a record: each own property in order,
    its value converted to a string. *)
Definition create (init : list (string * value)) : t :=
  map (fun '(k, v) => (k, JS.to_string v)) init.

Definition append (name : string) (v : value) (p : t) : t :=
  (p ++ [(name, JS.to_string v)])%list.

(** [cond && params.append(name, cond)]: the append runs for a truthy
    argument only. *)
Definition append_if_truthy (name : string) (v : value) (p : t) : t :=
  if JS.truthy v then append name v p else p.

Definition toString (p : t) : string :=
  JS.join "&" (map (fun '(k, v) => Wire.form_encode k ++ "=" ++ Wire.form_encode v) p).

End URLSearchParams.

(* ------------------------------------------------------------------ *)
(** ** The network and the effects of a method body *)

Record Headers : Type := { Authorization : string }.

Module Fetch.

(** The second argument of [fetch(url, init)]; an omitted [method] is a
    GET, an omitted (or [undefined]) [body] sends none. *)
Record init : Type := {
  method : option string;
  headers : Headers;
  body : option string
}.

Record request : Type := { url : string; options : init }.

Definition verb (r : request) : string :=
  match method (options r) with
  | Some m => m
  | None => "GET"
  end.

(** What comes back: no response at all (connection refused, DNS failure,
    timeout), or a response whose body either parses as JSON or does not. *)
Inductive payload : Type :=
| NotJson (text : string)
| Json (data : value).

Inductive reply : Type :=
| Unreachable (reason : string)
| Response (content : payload).

End Fetch.

(** Faults a method body can raise. *)
Inductive fault : Type :=
| FetchRejected (reason : string)   (* [fetch] rejects: transport level *)
| JsonSyntaxError (text : string)   (* [response.json()] rejects *)
| TypeError.                        (* destructuring [null]/[undefined] *)

Inductive completion (A : Type) : Type :=
| Normal (a : A)
| Throw (f : fault).
Arguments Throw {A} f.

(** The state a method runs in: the receiver [this], the remote service
    (its answer may depend on everything it was sent before) and the
    requests issued so far. *)
Record world (T : Type) : Type := {
  this : T;
  remote : list Fetch.request -> Fetch.request -> Fetch.reply;
  sent : list Fetch.request
}.

Definition js (T A : Type) : Type := world T -> completion A * world T.

Section Effects.
Context {T : Type}.

Definition ret {A} (a : A) : js T A := fun w => (Normal a, w).

Definition throw {A} (f : fault) : js T A := fun w => (Throw f, w).

Definition bind {A B} (c : js T A) (k : A -> js T B) : js T B :=
  fun w =>
    match c w with
    | (Normal a, w') => k a w'
    | (Throw f, w') => (Throw f, w')
    end.

Definition self : js T T := fun w => (Normal (this w), w).

(** [await fetch(url, init)]: one request goes out and is recorded. *)
Definition fetch (u : string) (i : Fetch.init) : js T Fetch.payload :=
  fun w =>
    let r := {| Fetch.url := u; Fetch.options := i |} in
    let w' := {| this := this w; remote := remote w;
                 sent := (sent w ++ [r])%list |} in
    match remote w (sent w) r with
    | Fetch.Unreachable why => (Throw (FetchRejected why), w')
    | Fetch.Response content => (Normal content, w')
    end.

(** [await response.json()]. *)
Definition json (content : Fetch.payload) : js T value :=
  match content with
  | Fetch.Json data => ret data
  | Fetch.NotJson text => throw (JsonSyntaxError text)
  end.

(** The source of a destructuring pattern [const {...} = await v]; a JSON
    value is no thenable, so [await v] is [v]. *)
Definition destructure (v : value) : js T value :=
  if JS.object_coercible v then ret v else throw TypeError.

End Effects.

Declare Scope js_scope.
Delimit Scope js_scope with js.
Notation "x <- c ;; k" := (bind c (fun x => k))
  (at level 61, c at next level, right associativity) : js_scope.
Notation "s +s t" := (String.append s t)
  (at level 50, left associativity, only parsing) : js_scope.
Notation "s +v v" := (JS.concat s v)
  (at level 50, left associativity, only parsing) : js_scope.
Open Scope js_scope.

Definition run {T A} (c : js T A) (w : world T) : completion A := fst (c w).
Definition after {T A} (c : js T A) (w : world T) : world T := snd (c w).

(** The requests a computation adds to the log. *)
Definition issued {T A} (c : js T A) (w : world T) : list Fetch.request :=
  skipn (List.length (sent w)) (sent (after c w)).

(* ------------------------------------------------------------------ *)
(** ** The API classes *)

(** The base class of the resource areas (lib/generic). *)
Module GenericAPI.
(** Modelled from the spec: the class [GenericAPI] is declared in
    lib/generic, outside the two files embedded here; per the spec a
    resource area is "configured with one base URL and one auth header set
    at client-construction time", so an instance holds these two values. *)
Record t : Type := { headers : Headers; origin : string }.
(** Modelled from the spec: the constructor of [GenericAPI] (and of [OAuth]
    and [Catalog], built by the same call shape) stores the headers and the
    origin it is given. *)
Definition constructor (h : Headers) (o : string) : t :=
  {| headers := h; origin := o |}.
End GenericAPI.

Definition obj (props : list (string * value)) : value := JObj props.

(** The account client (class [PrintfulAcountClient]). *)
Module PrintfulAcountClient.

Record t : Type := {
  origin : string;
  headers : Headers;
  oauth : GenericAPI.t;
  catalog : GenericAPI.t
}.

Definition constructor (auth : value) : t :=
  let origin := "https://api.printful.com" in
  let headers := {| Authorization := "Bearer " +v (JS.or auth (JStr "")) |} in
  {| origin := origin;
     headers := headers;
     oauth := GenericAPI.constructor headers origin;
     catalog := GenericAPI.constructor headers origin |}.

Definition M := js t value.

(* III. Products API *)

Definition getSyncProducts (offset limit category_id : value) : M :=
  let offset := JS.default_param offset (JNum 0) in
  let limit := JS.default_param limit (JNum 20) in
  let category_id := JS.default_param category_id (JStr "") in
  this <- self ;;
  let url := origin this +s "/store/products?" +s "offset=" +v offset
             +s "&limit=" +v limit
             +s (if JS.truthy category_id
                 then "&category_id=" +v category_id else "") in
  response <- fetch url {| Fetch.method := None;
                           Fetch.headers := headers this;
                           Fetch.body := None |} ;;
  data <- json response ;;
  env <- destructure data ;;
  let products := JS.get env "result" in
  let paging := JS.get env "paging" in
  let code := JS.get env "code" in
  let error := JS.get env "error" in
  if JS.ge code 400
  then ret (obj [("products", JArr []);
                 ("paging", obj [("offset", offset); ("limit", limit)]);
                 ("error", error)])
  else ret (obj [("products", products); ("paging", paging);
                 ("error", obj [])]).

Definition createSyncProduct (sync_product sync_variants : value) : M :=
  this <- self ;;
  let url := origin this +s "/store/products" in
  response <- fetch url {| Fetch.method := Some "POST";
                           Fetch.headers := headers this;
                           Fetch.body :=
                             Wire.stringify
                               (obj [("sync_product", sync_product);
                                     ("sync_variants", sync_variants)]) |} ;;
  data <- json response ;;
  env <- destructure data ;;
  let product := JS.get env "result" in
  let code := JS.get env "code" in
  let error := JS.get env "error" in
  if JS.ge code 400
  then ret (obj [("product", obj []); ("error", error)])
  else ret (obj [("product", product); ("error", obj [])]).

Definition getSyncProduct (id : value) : M :=
  this <- self ;;
  let url := origin this +s "/store/products/" +v id in
  response <- fetch url {| Fetch.method := None;
                           Fetch.headers := headers this;
                           Fetch.body := None |} ;;
  data <- json response ;;
  env <- destructure data ;;
  let result := JS.get env "result" in
  let code := JS.get env "code" in
  let error := JS.get env "error" in
  if JS.ge code 400
  then ret (obj [("sync_product", obj []); ("sync_variants", JArr []);
                 ("error", error)])
  else
    inner <- destructure result ;;
    let sync_product := JS.get inner "sync_product" in
    let sync_variants := JS.get inner "sync_variants" in
    ret (obj [("sync_product", sync_product);
              ("sync_variants", sync_variants); ("error", obj [])]).

Definition deleteSyncProduct (id : value) : M :=
  this <- self ;;
  let url := origin this +s "/store/products/" +v id in
  response <- fetch url {| Fetch.method := Some "DELETE";
                           Fetch.headers := headers this;
                           Fetch.body := None |} ;;
  data <- json response ;;
  env <- destructure data ;;
  let result := JS.get env "result" in
  let code := JS.get env "code" in
  let error := JS.get env "error" in
  if JS.ge code 400
  then ret (obj [("result", JArr []); ("error", error)])
  else ret (obj [("result", result); ("error", obj [])]).

Definition modifySyncProduct (id sync_product sync_variants : value) : M :=
  this <- self ;;
  let url := origin this +s "/store/products/" +v id in
  response <- fetch url {| Fetch.method := Some "PUT";
                           Fetch.headers := headers this;
                           Fetch.body :=
                             Wire.stringify
                               (obj [("sync_product", sync_product);
                                     ("sync_variants", sync_variants)]) |} ;;
  data <- json response ;;
  env <- destructure data ;;
  let product := JS.get env "result" in
  let code := JS.get env "code" in
  let error := JS.get env "error" in
  if JS.ge code 400
  then ret (obj [("product", obj []); ("error", error)])
  else ret (obj [("product", product); ("error", obj [])]).

Definition getSyncVariant (id : value) : M :=
  this <- self ;;
  let url := origin this +s "/store/variants/" +v id in
  response <- fetch url {| Fetch.method := None;
                           Fetch.headers := headers this;
                           Fetch.body := None |} ;;
  data <- json response ;;
  env <- destructure data ;;
  let variant := JS.get env "result" in
  let code := JS.get env "code" in
  let error := JS.get env "error" in
  if JS.ge code 400
  then ret (obj [("variant", obj []); ("error", error)])
  else ret (obj [("variant", variant); ("error", obj [])]).

Definition deleteSyncVariant (id : value) : M :=
  this <- self ;;
  let url := origin this +s "/store/variants/" +v id in
  response <- fetch url {| Fetch.method := Some "DELETE";
                           Fetch.headers := headers this;
                           Fetch.body := None |} ;;
  data <- json response ;;
  env <- destructure data ;;
  let result := JS.get env "result" in
  let code := JS.get env "code" in
  let error := JS.get env "error" in
  if JS.ge code 400
  then ret (obj [("result", JArr []); ("error", error)])
  else ret (obj [("result", result); ("error", obj [])]).

Definition modifySyncVariant (id sync_variant : value) : M :=
  this <- self ;;
  let url := origin this +s "/store/variants/" +v id in
  response <- fetch url {| Fetch.method := Some "PUT";
                           Fetch.headers := headers this;
                           Fetch.body := Wire.stringify sync_variant |} ;;
  data <- json response ;;
  env <- destructure data ;;
  let variant := JS.get env "result" in
  let code := JS.get env "code" in
  let error := JS.get env "error" in
  if JS.ge code 400
  then ret (obj [("variant", obj []); ("error", error)])
  else ret (obj [("variant", variant); ("error", obj [])]).

(** The path is written [".../store/products/"+{id}+"/variants"]: what is
    concatenated is the object literal [{id}], not [id]. *)
Definition createSyncVariant (id sync_variant : value) : M :=
  this <- self ;;
  let url := origin this +s "/store/products/" +v obj [("id", id)]
             +s "/variants" in
  response <- fetch url {| Fetch.method := Some "POST";
                           Fetch.headers := headers this;
                           Fetch.body := Wire.stringify sync_variant |} ;;
  data <- json response ;;
  env <- destructure data ;;
  let variant := JS.get env "result" in
  let code := JS.get env "code" in
  let error := JS.get env "error" in
  if JS.ge code 400
  then ret (obj [("variant", obj []); ("error", error)])
  else ret (obj [("variant", variant); ("error", obj [])]).

(* IV. Product templates API *)

Definition getProductTemplates (offset limit : value) : M :=
  let offset := JS.default_param offset (JNum 0) in
  let limit := JS.default_param limit (JNum 20) in
  this <- self ;;
  let url := origin this +s "/product-templates" +s "?offset=" +v offset
             +s "&limit=" +v limit in
  response <- fetch url {| Fetch.method := None;
                           Fetch.headers := headers this;
                           Fetch.body := None |} ;;
  data <- json response ;;
  env <- destructure data ;;
  let code := JS.get env "code" in
  let result := JS.get env "result" in
  let paging := JS.get env "paging" in
  let error := JS.get env "error" in
  if JS.ge code 400
  then ret (obj [("templates", JArr []);
                 ("paging", obj [("offset", offset); ("limit", limit)]);
                 ("error", error)])
  else
    inner <- destructure result ;;
    let templates := JS.get inner "items" in
    ret (obj [("templates", templates); ("paging", paging);
              ("error", obj [])]).

Definition getProductTemplate (id : value) : M :=
  this <- self ;;
  let url := origin this +s "/product-templates/" +v id in
  response <- fetch url {| Fetch.method := None;
                           Fetch.headers := headers this;
                           Fetch.body := None |} ;;
  data <- json response ;;
  env <- destructure data ;;
  let code := JS.get env "code" in
  let result := JS.get env "result" in
  let error := JS.get env "error" in
  if JS.ge code 400
  then ret (obj [("template", obj []); ("error", error)])
  else ret (obj [("template", result); ("error", obj [])]).

Definition deleteProductTemplate (id : value) : M :=
  this <- self ;;
  let url := origin this +s "/product-templates/" +v id in
  response <- fetch url {| Fetch.method := Some "DELETE";
                           Fetch.headers := headers this;
                           Fetch.body := None |} ;;
  data <- json response ;;
  env <- destructure data ;;
  let code := JS.get env "code" in
  let result := JS.get env "result" in
  let error := JS.get env "error" in
  if JS.ge code 400
  then ret (obj [("success", JBool false); ("error", error)])
  else
    inner <- destructure result ;;
    let success := JS.get inner "success" in
    ret (obj [("success", success); ("error", obj [])]).

(* V. Orders API *)

Definition getOrders (offset limit status : value) : M :=
  let offset := JS.default_param offset (JNum 0) in
  let limit := JS.default_param limit (JNum 20) in
  this <- self ;;
  let url := origin this +s "/orders" +s "?offset=" +v offset
             +s "&limit=" +v limit +s "&status=" +v status in
  response <- fetch url {| Fetch.method := None;
                           Fetch.headers := headers this;
                           Fetch.body := None |} ;;
  data <- json response ;;
  env <- destructure data ;;
  let code := JS.get env "code" in
  let orders := JS.get env "result" in
  let paging := JS.get env "paging" in
  let error := JS.get env "error" in
  if JS.ge code 400
  then ret (obj [("orders", JArr []);
                 ("paging", obj [("offset", offset); ("limit", limit)]);
                 ("error", error)])
  else ret (obj [("orders", orders); ("paging", paging);
                 ("error", obj [])]).

(** On success the envelope's own [error] is handed back (the other
    methods put [{}] there). *)
Definition createOrder (newOrder confirm update_existing : value) : M :=
  let confirm := JS.default_param confirm (JBool false) in
  let update_existing := JS.default_param update_existing (JBool false) in
  this <- self ;;
  let url := origin this +s "/orders" +s "?confirm=" +v confirm
             +s "&update_existing=" +v update_existing in
  response <- fetch url {| Fetch.method := Some "POST";
                           Fetch.headers := headers this;
                           Fetch.body := Wire.stringify newOrder |} ;;
  data <- json response ;;
  env <- destructure data ;;
  let code := JS.get env "code" in
  let order := JS.get env "result" in
  let error := JS.get env "error" in
  if JS.ge code 400
  then ret (obj [("order", obj []); ("error", error)])
  else ret (obj [("order", order); ("error", error)]).

(** The remaining methods ([getOrder], [cancelOrder], ...) have an empty
    body: they answer [undefined] and send nothing. *)
Definition stub : M := ret JUndefined.

End PrintfulAcountClient.

Definition createPrintfulAcountClient (auth : value) : PrintfulAcountClient.t :=
  PrintfulAcountClient.constructor auth.

(** The mockup generator area (class [MockupGeneratorAPI], which extends
    [GenericAPI]). *)
Module MockupGeneratorAPI.

Abbreviation t := GenericAPI.t.

Definition constructor (h : Headers) (o : string) : t :=
  GenericAPI.constructor h o.

Definition M := js t value.

Definition createMockupTask (id mockup_task : value) : M :=
  this <- self ;;
  let url := GenericAPI.origin this +s "/mockup-generator/create-task/"
             +v id in
  response <- fetch url {| Fetch.method := Some "POST";
                           Fetch.headers := GenericAPI.headers this;
                           Fetch.body := Wire.stringify mockup_task |} ;;
  data <- json response ;;
  env <- destructure data ;;
  let task := JS.get env "result" in
  let code := JS.get env "code" in
  let error := JS.get env "error" in
  if JS.ge code 400
  then ret (obj [("task", JNull); ("error", error)])
  else ret (obj [("task", task); ("error", JNull)]).

Definition getProductVariantPrintFiles (id orientation technique : value)
  : M :=
  let params := URLSearchParams.create [] in
  let params := URLSearchParams.append_if_truthy "orientation" orientation
                  params in
  let params := URLSearchParams.append_if_truthy "technique" technique
                  params in
  this <- self ;;
  let url := GenericAPI.origin this +s "/mockup-generator/printfiles/"
             +v id +s "?" +s URLSearchParams.toString params in
  response <- fetch url {| Fetch.method := None;
                           Fetch.headers := GenericAPI.headers this;
                           Fetch.body := None |} ;;
  data <- json response ;;
  env <- destructure data ;;
  let files := JS.get env "result" in
  let code := JS.get env "code" in
  let error := JS.get env "error" in
  if JS.ge code 400
  then ret (obj [("files", JNull); ("error", error)])
  else ret (obj [("files", files); ("error", JNull)]).

Definition getMockupTaskResult (task_key : value) : M :=
  let params := URLSearchParams.create [("task_key", task_key)] in
  this <- self ;;
  let url := GenericAPI.origin this +s "/mockup-generator/task?"
             +s URLSearchParams.toString params in
  response <- fetch url {| Fetch.method := None;
                           Fetch.headers := GenericAPI.headers this;
                           Fetch.body := None |} ;;
  data <- json response ;;
  env <- destructure data ;;
  let task := JS.get env "result" in
  let code := JS.get env "code" in
  let error := JS.get env "error" in
  if JS.ge code 400
  then ret (obj [("task", JNull); ("error", error)])
  else ret (obj [("task", task); ("error", JNull)]).

Definition getLayoutTemplates (id orientation technique : value) : M :=
  let params := URLSearchParams.create [] in
  let params := URLSearchParams.append_if_truthy "orientation" orientation
                  params in
  let params := URLSearchParams.append_if_truthy "technique" technique
                  params in
  this <- self ;;
  let url := GenericAPI.origin this +s "/mockup-generator/templates/"
             +v id +s "?" +s URLSearchParams.toString params in
  response <- fetch url {| Fetch.method := None;
                           Fetch.headers := GenericAPI.headers this;
                           Fetch.body := None |} ;;
  data <- json response ;;
  env <- destructure data ;;
  let templates := JS.get env "result" in
  let code := JS.get env "code" in
  let error := JS.get env "error" in
  if JS.ge code 400
  then ret (obj [("templates", JNull); ("error", error)])
  else ret (obj [("templates", templates); ("error", JNull)]).

End MockupGeneratorAPI.

(* ------------------------------------------------------------------ *)
(** ** The catalogue of implemented endpoint methods *)

(** A call of an implemented method of the account client, with its
    arguments. *)
Inductive account_call : Type :=
| GetSyncProducts (offset limit category_id : value)
| CreateSyncProduct (sync_product sync_variants : value)
| GetSyncProduct (id : value)
| DeleteSyncProduct (id : value)
| ModifySyncProduct (id sync_product sync_variants : value)
| GetSyncVariant (id : value)
| DeleteSyncVariant (id : value)
| ModifySyncVariant (id sync_variant : value)
| CreateSyncVariant (id sync_variant : value)
| GetProductTemplates (offset limit : value)
| GetProductTemplate (id : value)
| DeleteProductTemplate (id : value)
| GetOrders (offset limit status : value)
| CreateOrder (newOrder confirm update_existing : value).

Definition account_invoke (c : account_call) : PrintfulAcountClient.M :=
  match c with
  | GetSyncProducts o l c => PrintfulAcountClient.getSyncProducts o l c
  | CreateSyncProduct p vs => PrintfulAcountClient.createSyncProduct p vs
  | GetSyncProduct i => PrintfulAcountClient.getSyncProduct i
  | DeleteSyncProduct i => PrintfulAcountClient.deleteSyncProduct i
  | ModifySyncProduct i p vs => PrintfulAcountClient.modifySyncProduct i p vs
  | GetSyncVariant i => PrintfulAcountClient.getSyncVariant i
  | DeleteSyncVariant i => PrintfulAcountClient.deleteSyncVariant i
  | ModifySyncVariant i v => PrintfulAcountClient.modifySyncVariant i v
  | CreateSyncVariant i v => PrintfulAcountClient.createSyncVariant i v
  | GetProductTemplates o l => PrintfulAcountClient.getProductTemplates o l
  | GetProductTemplate i => PrintfulAcountClient.getProductTemplate i
  | DeleteProductTemplate i => PrintfulAcountClient.deleteProductTemplate i
  | GetOrders o l s => PrintfulAcountClient.getOrders o l s
  | CreateOrder n c u => PrintfulAcountClient.createOrder n c u
  end.

(** A call of a method of the mockup generator area. *)
Inductive mockup_call : Type :=
| CreateMockupTask (id mockup_task : value)
| GetProductVariantPrintFiles (id orientation technique : value)
| GetMockupTaskResult (task_key : value)
| GetLayoutTemplates (id orientation technique : value).

Definition mockup_invoke (c : mockup_call) : MockupGeneratorAPI.M :=
  match c with
  | CreateMockupTask i m => MockupGeneratorAPI.createMockupTask i m
  | GetProductVariantPrintFiles i o t =>
      MockupGeneratorAPI.getProductVariantPrintFiles i o t
  | GetMockupTaskResult k => MockupGeneratorAPI.getMockupTaskResult k
  | GetLayoutTemplates i o t => MockupGeneratorAPI.getLayoutTemplates i o t
  end.

(** The methods issued without a [method] option, i.e. as GET. *)
Definition account_reads (c : account_call) : bool :=
  match c with
  | GetSyncProducts _ _ _ | GetSyncProduct _ | GetSyncVariant _
  | GetProductTemplates _ _ | GetProductTemplate _ | GetOrders _ _ _ => true
  | _ => false
  end.

Definition mockup_reads (c : mockup_call) : bool :=
  match c with
  | CreateMockupTask _ _ => false
  | _ => true
  end.

(** A test double for the remote service: it answers every request with
    the same reply. *)
Definition mock (r : Fetch.reply) : list Fetch.request -> Fetch.request -> Fetch.reply :=
  fun _ _ => r.

Definition start {T} (receiver : T)
  (service : list Fetch.request -> Fetch.request -> Fetch.reply) : world T :=
  {| this := receiver; remote := service; sent := [] |}.

(** Any implemented endpoint method, of either class, with its receiver. *)
Inductive endpoint_call : Type :=
| OnAccount (c : account_call)
| OnMockup (c : mockup_call).

Definition receiver (c : endpoint_call) : Type :=
  match c with
  | OnAccount _ => PrintfulAcountClient.t
  | OnMockup _ => MockupGeneratorAPI.t
  end.

Definition invoke (c : endpoint_call) : js (receiver c) value :=
  match c with
  | OnAccount c => account_invoke c
  | OnMockup c => mockup_invoke c
  end.

Definition is_read (c : endpoint_call) : bool :=
  match c with
  | OnAccount c => account_reads c
  | OnMockup c => mockup_reads c
  end.

(** The remote's answer to whatever request comes next. *)
Definition next_reply {T} (w : world T) (r : Fetch.reply) : Prop :=
  forall req, remote w (sent w) req = r.

(** The success path of these methods destructures [result] itself. *)
Definition destructures_result (c : endpoint_call) : bool :=
  match c with
  | OnAccount (GetSyncProduct _)
  | OnAccount (GetProductTemplates _ _)
  | OnAccount (DeleteProductTemplate _) => true
  | _ => false
  end.

(* ------------------------------------------------------------------ *)
(** ** Vocabulary of the specification *)

(** How a reply that is no JSON envelope surfaces. *)
Inductive transport_failure : Fetch.reply -> fault -> Prop :=
| tf_unreachable why :
    transport_failure (Fetch.Unreachable why) (FetchRejected why)
| tf_malformed text :
    transport_failure (Fetch.Response (Fetch.NotJson text))
                      (JsonSyntaxError text).

(** A session: method calls made one after the other on one instance,
    implemented ones and stubs alike. *)
Inductive method_call : Type :=
| Implemented (c : account_call)
| Unimplemented (name : string).

Definition call_method (m : method_call) : PrintfulAcountClient.M :=
  match m with
  | Implemented c => account_invoke c
  | Unimplemented _ => PrintfulAcountClient.stub
  end.

Fixpoint session (ms : list method_call) (w : world PrintfulAcountClient.t)
  : world PrintfulAcountClient.t :=
  match ms with
  | [] => w
  | m :: rest => session rest (after (call_method m) w)
  end.

(** The constructor argument [auth : string | undefined]. *)
Definition auth_value (token : option string) : value :=
  match token with
  | Some t => JStr t
  | None => JUndefined
  end.

Definition bearer (token : option string) : string :=
  match token with
  | Some t => "Bearer " ++ t
  | None => "Bearer "
  end.

(** The paginated list endpoints, with the [offset] and [limit] arguments
    of the call. *)
Inductive paginated : endpoint_call -> value -> value -> Prop :=
| paginated_products offset limit category_id :
    paginated (OnAccount (GetSyncProducts offset limit category_id))
              offset limit
| paginated_templates offset limit :
    paginated (OnAccount (GetProductTemplates offset limit)) offset limit
| paginated_orders offset limit status :
    paginated (OnAccount (GetOrders offset limit status)) offset limit.

(** The base URL of the receiver of a call. *)
Definition origin_of (c : endpoint_call) : receiver c -> string :=
  match c with
  | OnAccount _ => PrintfulAcountClient.origin
  | OnMockup _ => GenericAPI.origin
  end.

(** The two methods the contract singles out below. *)
Definition is_createSyncVariant (c : endpoint_call) : bool :=
  match c with
  | OnAccount (CreateSyncVariant _ _) => true
  | _ => false
  end.

Definition is_createOrder (c : endpoint_call) : bool :=
  match c with
  | OnAccount (CreateOrder _ _ _) => true
  | _ => false
  end.

(** The kinds of payload a method hands back. *)
Inductive payload_kind : Type :=
| ListPayload
| ObjectPayload
| FlagPayload.

(** The payload fields of each method, under the names of its return
    statements, each with the kind of value it carries on success: a list
    for the three paginated listings, for the sync variants of a product
    and for the bare [result] of the two sync deletions (the sources type
    it by nothing but the list the methods put there); the boolean
    [success] flag of the template deletion; an object for the rest. *)
Definition payload_shape (c : endpoint_call)
  : list (string * payload_kind) :=
  match c with
  | OnAccount (GetSyncProducts _ _ _) => [("products", ListPayload)]
  | OnAccount (CreateSyncProduct _ _) => [("product", ObjectPayload)]
  | OnAccount (GetSyncProduct _) =>
      [("sync_product", ObjectPayload); ("sync_variants", ListPayload)]
  | OnAccount (DeleteSyncProduct _) => [("result", ListPayload)]
  | OnAccount (ModifySyncProduct _ _ _) => [("product", ObjectPayload)]
  | OnAccount (GetSyncVariant _) => [("variant", ObjectPayload)]
  | OnAccount (DeleteSyncVariant _) => [("result", ListPayload)]
  | OnAccount (ModifySyncVariant _ _) => [("variant", ObjectPayload)]
  | OnAccount (CreateSyncVariant _ _) => [("variant", ObjectPayload)]
  | OnAccount (GetProductTemplates _ _) => [("templates", ListPayload)]
  | OnAccount (GetProductTemplate _) => [("template", ObjectPayload)]
  | OnAccount (DeleteProductTemplate _) => [("success", FlagPayload)]
  | OnAccount (GetOrders _ _ _) => [("orders", ListPayload)]
  | OnAccount (CreateOrder _ _ _) => [("order", ObjectPayload)]
  | OnMockup (CreateMockupTask _ _) => [("task", ObjectPayload)]
  | OnMockup (GetProductVariantPrintFiles _ _ _) =>
      [("files", ObjectPayload)]
  | OnMockup (GetMockupTaskResult _) => [("task", ObjectPayload)]
  | OnMockup (GetLayoutTemplates _ _ _) => [("templates", ObjectPayload)]
  end.

(** The empty value of each kind: [[]] for a list, [{}] or [null] for an
    object, [false] for the flag. *)
Definition empty_of_kind (k : payload_kind) (v : value) : bool :=
  match k, v with
  | ListPayload, JArr [] => true
  | ObjectPayload, JObj [] => true
  | ObjectPayload, JNull => true
  | FlagPayload, JBool false => true
  | _, _ => false
  end.

(** The payload values a success hands on, read off the envelope's
    [result]: [result] itself, or the sub-fields the three destructuring
    methods take out of it. *)
Definition handed_on (c : endpoint_call) (result : value) : list value :=
  match c with
  | OnAccount (GetSyncProduct _) =>
      [JS.get result "sync_product"; JS.get result "sync_variants"]
  | OnAccount (GetProductTemplates _ _) => [JS.get result "items"]
  | OnAccount (DeleteProductTemplate _) => [JS.get result "success"]
  | _ => [result]
  end.

(** The empty error of each class: [{}] in the account client, [null] in
    the mockup generator. *)
Definition no_error (c : endpoint_call) : value :=
  match c with
  | OnAccount _ => obj []
  | OnMockup _ => JNull
  end.

(** An error field that reports nothing: [{}] or [null]. *)
Definition empty_error (v : value) : bool :=
  match v with
  | JObj [] | JNull => true
  | _ => false
  end.

(** The empty payloads the specification lists: [[]], [{}] and [null]. *)
Definition empty_payload (v : value) : bool :=
  match v with
  | JArr [] | JObj [] | JNull => true
  | _ => false
  end.

(** The fields of a returned object other than [error] and [paging]. *)
Definition payload_fields (r : value) : list value :=
  match r with
  | JObj props =>
      map snd (filter (fun kv => negb (String.eqb (fst kv) "error")
                                 && negb (String.eqb (fst kv) "paging"))
                      props)
  | _ => []
  end.

(** What the failure half of the contract asks of a returned object, as the
    specification words it. *)
Definition failure_contract (data r : value) : Prop :=
  payload_fields r <> []
  /\ forallb empty_payload (payload_fields r) = true
  /\ JS.get r "error" = JS.get data "error".

(** The names of the fields of a returned object other than [error] and
    [paging], in order. *)
Definition payload_names (r : value) : list string :=
  match r with
  | JObj props =>
      map fst (filter (fun kv => negb (String.eqb (fst kv) "error")
                                 && negb (String.eqb (fst kv) "paging"))
                      props)
  | _ => []
  end.

(** The failure half of the contract with the pairing of empty value and
    endpoint kept, and [false] added for the flag: the returned object has
    exactly the payload fields of the method, each holding the empty value
    of its kind, and the envelope's [error]. *)
Definition typed_failure_contract (c : endpoint_call) (data r : value)
  : Prop :=
  payload_names r = map fst (payload_shape c)
  /\ Forall (fun fk => empty_of_kind (snd fk) (JS.get r (fst fk)) = true)
            (payload_shape c)
  /\ JS.get r "error" = JS.get data "error".

(** An id as the methods' signatures type it, [number | string]: a string,
    or an integer JavaScript holds exactly. *)
Definition typed_id (id : value) : bool :=
  match id with
  | JStr _ => true
  | JNum n => JS.safe_integer n
  | _ => false
  end.

(** The methods that take a resource id and put it in the path: the path
    before the id, the id, and what the documented route has after it. *)
Inductive id_route : endpoint_call -> string -> value -> string -> Prop :=
| route_getSyncProduct id :
    id_route (OnAccount (GetSyncProduct id)) "/store/products/" id ""
| route_deleteSyncProduct id :
    id_route (OnAccount (DeleteSyncProduct id)) "/store/products/" id ""
| route_modifySyncProduct id p vs :
    id_route (OnAccount (ModifySyncProduct id p vs)) "/store/products/" id ""
| route_getSyncVariant id :
    id_route (OnAccount (GetSyncVariant id)) "/store/variants/" id ""
| route_deleteSyncVariant id :
    id_route (OnAccount (DeleteSyncVariant id)) "/store/variants/" id ""
| route_modifySyncVariant id v :
    id_route (OnAccount (ModifySyncVariant id v)) "/store/variants/" id ""
| route_createSyncVariant id v :
    id_route (OnAccount (CreateSyncVariant id v))
             "/store/products/" id "/variants"
| route_getProductTemplate id :
    id_route (OnAccount (GetProductTemplate id)) "/product-templates/" id ""
| route_deleteProductTemplate id :
    id_route (OnAccount (DeleteProductTemplate id))
             "/product-templates/" id ""
| route_createMockupTask id task :
    id_route (OnMockup (CreateMockupTask id task))
             "/mockup-generator/create-task/" id ""
| route_printFiles id orientation technique :
    id_route (OnMockup (GetProductVariantPrintFiles id orientation technique))
             "/mockup-generator/printfiles/" id
             ("?" ++ URLSearchParams.toString
                       (URLSearchParams.append_if_truthy "technique" technique
                          (URLSearchParams.append_if_truthy
                             "orientation" orientation
                             (URLSearchParams.create []))))
| route_layoutTemplates id orientation technique :
    id_route (OnMockup (GetLayoutTemplates id orientation technique))
             "/mockup-generator/templates/" id
             ("?" ++ URLSearchParams.toString
                       (URLSearchParams.append_if_truthy "technique" technique
                          (URLSearchParams.append_if_truthy
                             "orientation" orientation
                             (URLSearchParams.create [])))).

(** Substring test. *)
Fixpoint contains (needle hay : string) : bool :=
  String.prefix needle hay
  || match hay with
     | EmptyString => false
     | String _ rest => contains needle rest
     end.

(** An optional argument left out: [undefined], or the empty string. *)
Definition absent (v : value) : Prop := v = JUndefined \/ v = JStr "".

Definition urls {T A} (c : js T A) (w : world T) : list string :=
  map Fetch.url (issued c w).

(** The implemented calls of a session, counted. *)
Definition is_implemented (m : method_call) : bool :=
  match m with
  | Implemented _ => true
  | Unimplemented _ => false
  end.

Definition count_implemented (ms : list method_call) : nat :=
  List.length (filter is_implemented ms).

(** The methods that send a body, with the value handed to
    [JSON.stringify]. *)
Inductive request_body : endpoint_call -> value -> Prop :=
| body_createSyncProduct p vs :
    request_body (OnAccount (CreateSyncProduct p vs))
                 (obj [("sync_product", p); ("sync_variants", vs)])
| body_modifySyncProduct id p vs :
    request_body (OnAccount (ModifySyncProduct id p vs))
                 (obj [("sync_product", p); ("sync_variants", vs)])
| body_modifySyncVariant id v :
    request_body (OnAccount (ModifySyncVariant id v)) v
| body_createSyncVariant id v :
    request_body (OnAccount (CreateSyncVariant id v)) v
| body_createOrder o c u :
    request_body (OnAccount (CreateOrder o c u)) o
| body_createMockupTask id t :
    request_body (OnMockup (CreateMockupTask id t)) t.




(** Reading a form-encoded text back: [+] is a space, [%XY] the byte with
    that hexadecimal code.  The client has no decoder; this one serves to
    show that the encoding loses nothing. *)
Definition hex_value (c : ascii) : option N :=
  let n := N_of_ascii c in
  if ((48 <=? n) && (n <=? 57))%N then Some (n - 48)%N
  else if ((65 <=? n) && (n <=? 70))%N then Some (n - 55)%N
  else None.

Fixpoint form_decode (s : string) : string :=
  match s with
  | EmptyString => ""
  | String c rest =>
      if (N_of_ascii c =? 43)%N then String " " (form_decode rest)
      else if (N_of_ascii c =? 37)%N then
        match rest with
        | String h (String l rest') =>
            match hex_value h, hex_value l with
            | Some a, Some b =>
                String (ascii_of_N (16 * a + b)) (form_decode rest')
            | _, _ => String c (form_decode rest)
            end
        | _ => String c (form_decode rest)
        end
      else String c (form_decode rest)
  end.

(* ------------------------------------------------------------------ *)
(** ** Test fixtures *)

Definition mock_json (data : value)
  : list Fetch.request -> Fetch.request -> Fetch.reply :=
  mock (Fetch.Response (Fetch.Json data)).

Definition sample_client : PrintfulAcountClient.t :=
  createPrintfulAcountClient (JStr "token").

Definition sample_mockups : MockupGeneratorAPI.t :=
  MockupGeneratorAPI.constructor {| Authorization := "Bearer token" |}
                                 "https://api.printful.com".

Definition sample_paging : value :=
  obj [("offset", JNum 0); ("limit", JNum 20); ("total", JNum 1)].

(** [{code:200, result:[{id:1}], paging:{offset:0,limit:20,total:1}}] *)
Definition envelope_200 : value :=
  obj [("code", JNum 200); ("result", JArr [obj [("id", JNum 1)]]);
       ("paging", sample_paging)].

(** [{code:404, error:{message:"not found"}}] *)
Definition envelope_404 : value :=
  obj [("code", JNum 404); ("error", obj [("message", JStr "not found")])].

(** A success envelope that also carries an [error] member. *)
Definition envelope_200_with_error : value :=
  obj [("code", JNum 200); ("result", obj [("id", JNum 1)]);
       ("error", obj [("message", JStr "warning")])].

Definition sample_variant : value :=
  obj [("variant_id", JNum 4011); ("retail_price", JStr "19.00")].

(** [{code:200, result:{items:[{id:5}]}, paging:{...}}] *)
Definition envelope_templates : value :=
  obj [("code", JNum 200); ("result", obj [("items", JArr [obj [("id", JNum 5)]])]);
       ("paging", sample_paging)].

Definition sample_order : value :=
  obj [("recipient", obj [("name", JStr "Ann")]);
       ("items", JArr [obj [("variant_id", JNum 1); ("quantity", JNum 2)]])].

(** A body that is JSON but no envelope at all: [null]. *)
Definition body_null : value := JNull.

(** [envelope_200] without its [code] member. *)
Definition envelope_without_code : value :=
  obj [("result", JArr [obj [("id", JNum 1)]]); ("paging", sample_paging)].

(** [{code:200, result:null, paging:{...}}]: a success envelope whose
    [result] is [null]. *)
Definition envelope_null_result : value :=
  obj [("code", JNum 200); ("result", JNull); ("paging", sample_paging)].

(** [{code:200}]: a success envelope without a [result] member. *)
Definition envelope_without_result : value :=
  obj [("code", JNum 200)].

(** [{code:500, result:{id:9}, paging:{...}, error:{message:"not found"}}]:
    another failure carrying the same error as [envelope_404]. *)
Definition envelope_500 : value :=
  obj [("code", JNum 500); ("result", obj [("id", JNum 9)]);
       ("paging", sample_paging);
       ("error", obj [("message", JStr "not found")])].

(* ------------------------------------------------------------------ *)
(** ** Basic facts *)

Lemma append_assoc (a b c : string) : (a ++ b) ++ c = a ++ b ++ c.
Proof.
  induction a as [|x a IH]; simpl; [reflexivity | now rewrite IH].
Qed.

Lemma skipn_log {A} (l : list A) (r : A) :
  skipn (List.length l) (l ++ [r])%list = [r].
Proof.
  induction l as [|x l IH]; simpl; [reflexivity | exact IH].
Qed.

Lemma string_eqb_empty (s : string) : String.eqb s "" = true -> s = "".
Proof. intro H. now apply String.eqb_eq. Qed.

Ltac unfold_methods :=
  unfold invoke, account_invoke, mockup_invoke,
    PrintfulAcountClient.getSyncProducts,
    PrintfulAcountClient.createSyncProduct,
    PrintfulAcountClient.getSyncProduct,
    PrintfulAcountClient.deleteSyncProduct,
    PrintfulAcountClient.modifySyncProduct,
    PrintfulAcountClient.getSyncVariant,
    PrintfulAcountClient.deleteSyncVariant,
    PrintfulAcountClient.modifySyncVariant,
    PrintfulAcountClient.createSyncVariant,
    PrintfulAcountClient.getProductTemplates,
    PrintfulAcountClient.getProductTemplate,
    PrintfulAcountClient.deleteProductTemplate,
    PrintfulAcountClient.getOrders,
    PrintfulAcountClient.createOrder,
    MockupGeneratorAPI.createMockupTask,
    MockupGeneratorAPI.getProductVariantPrintFiles,
    MockupGeneratorAPI.getMockupTaskResult,
    MockupGeneratorAPI.getLayoutTemplates.

Ltac unfold_effects :=
  unfold issued; unfold run, after, bind, self, fetch, json, destructure, ret, throw.

(** Case analysis on everything a method body branches on once the reply
    is in. *)
Ltac split_reply :=
  repeat match goal with
    | |- context [match ?x with
                  | Fetch.Unreachable _ => _
                  | Fetch.Response _ => _
                  end] =>
        progress (destruct x as [?why | [?text | ?data]])
    | |- context [if JS.object_coercible ?v then _ else _] =>
        progress (destruct (JS.object_coercible v) eqn:?)
    | |- context [if JS.ge ?v ?n then _ else _] =>
        progress (destruct (JS.ge v n) eqn:?)
    end.

(** One goal per method, the receiver's type in plain form. *)
Ltac each_method c :=
  destruct c as [c | c]; destruct c; cbn [receiver] in *.

Ltac exec :=
  unfold_methods; unfold_effects; cbn beta iota;
  repeat (split_reply; progress cbn beta iota).

(** A method never writes to its receiver or to the remote, and sends
    exactly one request. *)
Lemma invoke_frame (c : endpoint_call) (w : world (receiver c)) :
  this (after (invoke c) w) = this w
  /\ remote (after (invoke c) w) = remote w
  /\ exists r, sent (after (invoke c) w) = (sent w ++ [r])%list.
Proof.
  each_method c;
    unfold_methods; unfold_effects; cbn beta iota; split_reply;
    cbn [this remote sent snd fst];
    (split; [reflexivity | split; [reflexivity | eexists; reflexivity]]).
Qed.

(** The result of a call is a function of the arguments, the receiver and
    the remote's answer, and of nothing else. *)
Lemma run_ext (c : endpoint_call) (w w' : world (receiver c)) :
  this w = this w' ->
  (forall req, remote w (sent w) req = remote w' (sent w') req) ->
  run (invoke c) w = run (invoke c) w'.
Proof.
  intros Hthis Hremote.
  each_method c; unfold_methods; unfold_effects; cbn beta iota;
    rewrite Hthis, Hremote; split_reply; reflexivity.
Qed.


Lemma constructor_headers (token : option string) :
  Authorization
    (PrintfulAcountClient.headers
       (PrintfulAcountClient.constructor (auth_value token)))
  = bearer token.
Proof.
  destruct token as [t |]; [| reflexivity].
  unfold PrintfulAcountClient.constructor, JS.concat, JS.or; cbn.
  destruct (String.eqb t "") eqn:E; cbn; [| reflexivity].
  now rewrite (string_eqb_empty _ E).
Qed.

(** Every request of a call carries the receiver's headers. *)
Lemma account_request_headers (c : account_call)
  (w : world PrintfulAcountClient.t) :
  Forall (fun r => Fetch.headers (Fetch.options r)
                   = PrintfulAcountClient.headers (this w))
         (issued (account_invoke c) w).
Proof.
  destruct c; unfold_methods; unfold_effects; cbn beta iota; split_reply;
    cbn [this remote sent snd fst]; rewrite skipn_log;
    repeat constructor.
Qed.

Lemma mockup_request_headers (c : mockup_call)
  (w : world MockupGeneratorAPI.t) :
  Forall (fun r => Fetch.headers (Fetch.options r)
                   = GenericAPI.headers (this w))
         (issued (mockup_invoke c) w).
Proof.
  destruct c; unfold_methods; unfold_effects; cbn beta iota; split_reply;
    cbn [this remote sent snd fst]; rewrite skipn_log;
    repeat constructor.
Qed.

Lemma call_method_frame (m : method_call) (w : world PrintfulAcountClient.t) :
  this (after (call_method m) w) = this w
  /\ sent (after (call_method m) w)
     = (sent w ++ issued (call_method m) w)%list.
Proof.
  destruct m as [c | name].
  - destruct (invoke_frame (OnAccount c) w) as (Ht & _ & r & Hs).
    cbn [invoke receiver call_method] in *. split; [exact Ht |].
    unfold issued. rewrite Hs, skipn_log. reflexivity.
  - cbn. unfold issued. cbn. rewrite skipn_all, app_nil_r. tauto.
Qed.

Lemma session_invariant (P : Fetch.request -> Prop) (ms : list method_call) :
  forall w,
    (forall m w', this w' = this w -> Forall P (issued (call_method m) w')) ->
    Forall P (sent w) ->
    this (session ms w) = this w /\ Forall P (sent (session ms w)).
Proof.
  induction ms as [| m rest IH]; intros w Hcall Hlog; cbn [session].
  - split; [reflexivity | exact Hlog].
  - destruct (call_method_frame m w) as [Ht Hs].
    destruct (IH (after (call_method m) w)) as [Ht' Hlog'].
    + intros m' w' Hw'. apply Hcall. now rewrite Hw'.
    + rewrite Hs. apply Forall_app. split; [exact Hlog |].
      now apply Hcall.
    + split; [now rewrite Ht' | exact Hlog'].
Qed.

(* ------------------------------------------------------------------ *)
(** ** Envelope normalisation *)

Lemma code_of_object (data : value) (code : Z) :
  JS.get data "code" = JNum code -> JS.object_coercible data = true.
Proof. destruct data; cbn; discriminate || reflexivity. Qed.

Lemma ge_number (code n : Z) : JS.ge (JNum code) n = (n <=? code).
Proof. reflexivity. Qed.

(** Run a method body up to its branch on [code], for a JSON envelope. *)
Ltac with_envelope Hreply Hcode :=
  unfold_methods; unfold_effects; cbn beta iota;
  rewrite (Hreply _); cbn beta iota;
  rewrite (code_of_object _ Hcode); cbn beta iota;
  rewrite Hcode, ge_number.

Ltac success_branch Hlt :=
  rewrite (proj2 (Z.leb_gt 400 _) Hlt); cbn beta iota.

Ltac failure_branch Hge :=
  rewrite (proj2 (Z.leb_le 400 _) Hge); cbn beta iota.

(** X17: on an envelope whose code is below 400, every method but
    [createOrder] returns the empty error of its class ([{}] in the
    account client, [null] in the mockup generator) and, under the same
    payload field names as in its failure result, the envelope's [result]
    or the sub-fields of it that the method takes out. *)
Lemma success_contract_elsewhere (c : endpoint_call) (w : world (receiver c))
  (data : value) (code : Z) :
  is_createOrder c = false ->
  next_reply w (Fetch.Response (Fetch.Json data)) ->
  JS.get data "code" = JNum code ->
  code < 400 ->
  (destructures_result c = true ->
   JS.object_coercible (JS.get data "result") = true) ->
  exists r,
    run (invoke c) w = Normal r
    /\ JS.get r "error" = no_error c
    /\ payload_names r = map fst (payload_shape c)
    /\ payload_fields r = handed_on c (JS.get data "result").
Proof.
  intros Hc Hreply Hcode Hlt Hres.
  each_method c; try discriminate Hc; with_envelope Hreply Hcode;
    success_branch Hlt; try (rewrite (Hres eq_refl); cbn beta iota);
    (eexists; split; [reflexivity |]); repeat split; reflexivity.
Qed.

(** [createOrder] hands back whatever [error] member a success envelope
    has. *)
Lemma createOrder_success (newOrder confirm update_existing : value)
  (w : world PrintfulAcountClient.t) (data : value) (code : Z) :
  next_reply w (Fetch.Response (Fetch.Json data)) ->
  JS.get data "code" = JNum code ->
  code < 400 ->
  run (PrintfulAcountClient.createOrder newOrder confirm update_existing) w
  = Normal (obj [("order", JS.get data "result");
                 ("error", JS.get data "error")]).
Proof.
  intros Hreply Hcode Hlt.
  with_envelope Hreply Hcode; success_branch Hlt; reflexivity.
Qed.

(** The first scenario of the specification: [getSyncProducts(0, 20)]. *)
Example getSyncProducts_scenario :
  run (PrintfulAcountClient.getSyncProducts (JNum 0) (JNum 20) JUndefined)
      (start sample_client (mock_json envelope_200))
  = Normal (obj [("products", JArr [obj [("id", JNum 1)]]);
                 ("paging", sample_paging); ("error", obj [])]).
Proof. reflexivity. Qed.

(** C1 (the code departs from the claim at [createOrder]): on a success
    envelope every method is to return an empty error field and the
    envelope's result; [createOrder(order, true, false)] answered with
    [{code:200, result:{id:1}, error:{message:"warning"}}] returns the
    envelope's error member instead of an empty one. *)
Theorem createOrder_success_keeps_envelope_error :
  run (invoke (OnAccount (CreateOrder sample_order (JBool true) (JBool false))))
      (start sample_client (mock_json envelope_200_with_error))
  = Normal (obj [("order", obj [("id", JNum 1)]);
                 ("error", obj [("message", JStr "warning")])])
  /\ empty_error (obj [("message", JStr "warning")]) = false
  /\ run (invoke (OnAccount (CreateOrder sample_order (JBool true)
                               (JBool false))))
         (start sample_client (mock_json envelope_200))
     = Normal (obj [("order", JArr [obj [("id", JNum 1)]]);
                    ("error", JUndefined)]).
Proof. repeat split; reflexivity. Qed.

(** C2 as stated fails: [deleteProductTemplate(7)] answered with
    [{code:404, error:{message:"not found"}}] returns [success: false],
    which is none of [[]], [{}] and [null]. *)
Lemma deleteProductTemplate_failure_payload_is_false :
  exists r,
    run (invoke (OnAccount (DeleteProductTemplate (JNum 7))))
        (start sample_client (mock_json envelope_404))
    = Normal r
    /\ ~ failure_contract envelope_404 r.
Proof.
  eexists. split; [reflexivity |].
  intros (_ & Hempty & _). discriminate Hempty.
Qed.

(** C2 (amended): when the envelope's code is at least 400, every
    implemented method returns its payload field(s) holding the
    type-appropriate empty value for that endpoint ([[]] for a list, [{}]
    or [null] for an object, and [false] for the boolean [success] flag of
    [deleteProductTemplate]) and the error field holding the envelope's
    [error]. *)
Theorem failure_contract_amended (c : endpoint_call) (w : world (receiver c))
  (data : value) (code : Z) :
  next_reply w (Fetch.Response (Fetch.Json data)) ->
  JS.get data "code" = JNum code ->
  400 <= code ->
  exists r, run (invoke c) w = Normal r /\ typed_failure_contract c data r.
Proof.
  intros Hreply Hcode Hge.
  each_method c; with_envelope Hreply Hcode; failure_branch Hge;
    (eexists; split; [reflexivity |]);
    (split; [reflexivity | split; [repeat constructor | reflexivity]]).
Qed.

(** The second scenario of the specification: [getSyncProduct(999)]. *)
Lemma failure_contract_amended_witness :
  let c := OnAccount (GetSyncProduct (JNum 999)) in
  let w := start sample_client (mock_json envelope_404) in
  next_reply w (Fetch.Response (Fetch.Json envelope_404))
  /\ JS.get envelope_404 "code" = JNum 404
  /\ 400 <= 404
  /\ exists r, run (invoke c) w = Normal r
               /\ typed_failure_contract c envelope_404 r.
Proof.
  intros c w.
  assert (Hreply : next_reply w (Fetch.Response (Fetch.Json envelope_404)))
    by (intro req; reflexivity).
  assert (Hcode : JS.get envelope_404 "code" = JNum 404) by reflexivity.
  assert (Hge : 400 <= 404) by lia.
  repeat split; try assumption.
  exact (@failure_contract_amended c w envelope_404 404 Hreply Hcode Hge).
Defined.

Example getSyncProduct_scenario :
  run (PrintfulAcountClient.getSyncProduct (JNum 999))
      (start sample_client (mock_json envelope_404))
  = Normal (obj [("sync_product", obj []); ("sync_variants", JArr []);
                 ("error", obj [("message", JStr "not found")])]).
Proof. reflexivity. Qed.

(** C3 as stated fails: [getProductTemplates(0, 20)] answered with
    [{code:200, result:null, paging:{...}}] takes [result] apart before it
    returns, throws a TypeError and hands back no [paging] at all. *)
Lemma getProductTemplates_null_result_returns_no_paging :
  JS.get envelope_null_result "code" = JNum 200
  /\ run (invoke (OnAccount (GetProductTemplates (JNum 0) (JNum 20))))
         (start sample_client (mock_json envelope_null_result))
     = Throw TypeError
  /\ ~ (exists r,
          run (invoke (OnAccount (GetProductTemplates (JNum 0) (JNum 20))))
              (start sample_client (mock_json envelope_null_result))
          = Normal r
          /\ JS.get r "paging" = JS.get envelope_null_result "paging").
Proof.
  split; [reflexivity | split; [reflexivity |]].
  intros (r & Hrun & _). discriminate Hrun.
Qed.

(** C3 (amended): for the paginated list endpoints ([getSyncProducts],
    [getProductTemplates], [getOrders]) the returned [paging] field is the
    envelope's [paging] when the code is below 400 (for
    [getProductTemplates], which takes [result] apart first, provided
    [result] is neither [null] nor [undefined]), and [{offset, limit}]
    built from the arguments of the call when the code is 400 or more. *)
Theorem paging_passthrough (c : endpoint_call) (offset limit : value)
  (w : world (receiver c)) (data : value) (code : Z) :
  paginated c offset limit ->
  next_reply w (Fetch.Response (Fetch.Json data)) ->
  JS.get data "code" = JNum code ->
  (destructures_result c = true -> code < 400 ->
   JS.object_coercible (JS.get data "result") = true) ->
  exists r,
    run (invoke c) w = Normal r
    /\ JS.get r "paging"
       = if code <? 400 then JS.get data "paging"
         else obj [("offset", JS.default_param offset (JNum 0));
                   ("limit", JS.default_param limit (JNum 20))].
Proof.
  intros Hpag Hreply Hcode Hres.
  destruct Hpag; cbn [receiver] in *; with_envelope Hreply Hcode;
    (destruct (Z.ltb_spec code 400) as [Hlt | Hge];
     [ success_branch Hlt | failure_branch Hge ]);
    try (rewrite (Hres eq_refl Hlt); cbn beta iota);
    (eexists; split; reflexivity).
Qed.

Lemma paging_passthrough_witness :
  let c := OnAccount (GetProductTemplates (JNum 0) (JNum 20)) in
  let w := start sample_client (mock_json envelope_templates) in
  paginated c (JNum 0) (JNum 20)
  /\ next_reply w (Fetch.Response (Fetch.Json envelope_templates))
  /\ JS.get envelope_templates "code" = JNum 200
  /\ (destructures_result c = true -> 200 < 400 ->
      JS.object_coercible (JS.get envelope_templates "result") = true)
  /\ exists r,
       run (invoke c) w = Normal r /\ JS.get r "paging" = sample_paging.
Proof.
  intros c w.
  assert (Hpag : paginated c (JNum 0) (JNum 20)) by constructor.
  assert (Hreply : next_reply w
                     (Fetch.Response (Fetch.Json envelope_templates)))
    by (intro req; reflexivity).
  assert (Hcode : JS.get envelope_templates "code" = JNum 200)
    by reflexivity.
  assert (Hres : destructures_result c = true -> 200 < 400 ->
                 JS.object_coercible (JS.get envelope_templates "result")
                 = true) by (intros _ _; reflexivity).
  repeat split; try assumption.
  exact (@paging_passthrough c (JNum 0) (JNum 20) w envelope_templates 200
           Hpag Hreply Hcode Hres).
Defined.

(* ------------------------------------------------------------------ *)
(** ** Request construction *)

Lemma append_nil_r (s : string) : s ++ "" = s.
Proof. induction s as [|x s IH]; simpl; [reflexivity | now rewrite IH]. Qed.

Lemma prefix_append (n t : string) : String.prefix n (n ++ t) = true.
Proof.
  induction n as [|x n IH]; simpl.
  - destruct t; reflexivity.
  - destruct (ascii_dec x x) as [_ | Hne]; [exact IH | now elim Hne].
Qed.

Lemma contains_unfold (n h : string) :
  contains n h
  = String.prefix n h
    || match h with
       | EmptyString => false
       | String _ rest => contains n rest
       end.
Proof. destruct h; reflexivity. Qed.

Lemma contains_append (a n t : string) : contains n (a ++ n ++ t) = true.
Proof.
  induction a as [|x a IH].
  - cbn [String.append]. rewrite contains_unfold, prefix_append. reflexivity.
  - cbn [String.append contains]. rewrite IH. apply orb_true_r.
Qed.

(** Run a method body up to the request it logs. *)
Ltac to_request :=
  unfold urls; unfold_methods; unfold_effects; cbn beta iota; split_reply;
  cbn [this remote sent snd fst]; rewrite skipn_log;
  cbn [map Fetch.url Fetch.options Fetch.method Fetch.body Fetch.headers];
  unfold JS.concat.

(** X7: apart from [createSyncVariant], a method that takes an id (a
    string, or an integer JavaScript holds exactly) puts the text of the
    id, as it is, in the path, after the base URL and the route of the
    method. *)
Lemma id_rendered_verbatim (c : endpoint_call) (path : string) (id : value)
  (rest : string) (w : world (receiver c)) :
  id_route c path id rest ->
  typed_id id = true ->
  is_createSyncVariant c = false ->
  urls (invoke c) w = [origin_of c (this w) ++ path ++ JS.to_string id ++ rest].
Proof.
  intros Hroute _ Hc.
  destruct Hroute; try discriminate Hc; cbn [receiver origin_of] in *;
    to_request; rewrite ?append_assoc, ?append_nil_r; reflexivity.
Qed.

(** [createSyncVariant] concatenates the object literal [{id}]: whatever
    the id, the path segment reads [[object Object]]. *)
Lemma createSyncVariant_url (id sync_variant : value)
  (w : world PrintfulAcountClient.t) :
  urls (PrintfulAcountClient.createSyncVariant id sync_variant) w
  = [PrintfulAcountClient.origin (this w)
     ++ "/store/products/[object Object]/variants"].
Proof.
  to_request; cbn [JS.to_string obj]; rewrite ?append_assoc; reflexivity.
Qed.

(** C4 (the code departs from the claim at [createSyncVariant]): the id is
    to appear verbatim as the path segment; [createSyncVariant("@ext-1", v)]
    requests [/store/products/[object Object]/variants], in which the id
    does not occur. *)
Theorem createSyncVariant_loses_the_id :
  urls (invoke (OnAccount (CreateSyncVariant (JStr "@ext-1") sample_variant)))
       (start sample_client (mock_json envelope_200))
  = ["https://api.printful.com/store/products/[object Object]/variants"]
  /\ contains "@ext-1"
       "https://api.printful.com/store/products/[object Object]/variants"
     = false.
Proof. split; reflexivity. Qed.

(** The request of [createOrder], for any arguments. *)
Lemma createOrder_request_general (newOrder confirm update_existing : value)
  (w : world PrintfulAcountClient.t) :
  issued (PrintfulAcountClient.createOrder newOrder confirm update_existing) w
  = [{| Fetch.url :=
          PrintfulAcountClient.origin (this w) ++ "/orders?confirm="
          ++ JS.to_string (JS.default_param confirm (JBool false))
          ++ "&update_existing="
          ++ JS.to_string (JS.default_param update_existing (JBool false));
        Fetch.options :=
          {| Fetch.method := Some "POST";
             Fetch.headers := PrintfulAcountClient.headers (this w);
             Fetch.body := Wire.stringify newOrder |} |}].
Proof.
  unfold_methods; unfold_effects; cbn beta iota; split_reply;
    cbn [this remote sent snd fst]; rewrite skipn_log; unfold JS.concat;
    rewrite ?append_assoc; reflexivity.
Qed.

(** C5: [createOrder(order, true, false)] issues one POST whose URL
    contains [confirm=true&update_existing=false] and whose body is the
    JSON text of [order]. *)
Theorem createOrder_request (order : value)
  (w : world PrintfulAcountClient.t) :
  exists r,
    issued (invoke (OnAccount (CreateOrder order (JBool true) (JBool false))))
           w = [r]
    /\ Fetch.verb r = "POST"
    /\ Fetch.url r
       = PrintfulAcountClient.origin (this w)
         ++ "/orders?confirm=true&update_existing=false"
    /\ contains "confirm=true&update_existing=false" (Fetch.url r) = true
    /\ Fetch.body (Fetch.options r) = Wire.stringify order.
Proof.
  cbn [invoke account_invoke]. rewrite createOrder_request_general.
  eexists. split; [reflexivity |]. cbn.
  repeat split.
  change "/orders?confirm=true&update_existing=false"
    with ("/orders?" ++ "confirm=true&update_existing=false" ++ "").
  rewrite <- append_assoc. apply contains_append.
Qed.

Lemma transport_fault_thrown (c : endpoint_call) (w : world (receiver c))
  (reply : Fetch.reply) (f : fault) :
  transport_failure reply f ->
  next_reply w reply ->
  run (invoke c) w = Throw f.
Proof.
  intros Hfail Hreply.
  destruct Hfail; each_method c; unfold_methods; unfold_effects;
    cbn beta iota; rewrite (Hreply _); reflexivity.
Qed.

(** C6: a transport-level failure or a body that is no JSON makes the call
    throw that fault; no normalised object is returned. *)
Theorem transport_faults_propagate (c : endpoint_call)
  (w : world (receiver c)) (reply : Fetch.reply) (f : fault) :
  transport_failure reply f ->
  next_reply w reply ->
  run (invoke c) w = Throw f /\ forall r, run (invoke c) w <> Normal r.
Proof.
  intros Hfail Hreply.
  pose proof (transport_fault_thrown c Hfail Hreply) as Hrun.
  split; [exact Hrun |]. intros r Hr. rewrite Hrun in Hr. discriminate Hr.
Qed.

Lemma transport_faults_propagate_witness :
  let c := OnMockup (CreateMockupTask (JNum 71) sample_order) in
  let w := start sample_mockups
             (mock (Fetch.Response (Fetch.NotJson "<html>502</html>"))) in
  transport_failure (Fetch.Response (Fetch.NotJson "<html>502</html>"))
                    (JsonSyntaxError "<html>502</html>")
  /\ next_reply w (Fetch.Response (Fetch.NotJson "<html>502</html>"))
  /\ run (invoke c) w = Throw (JsonSyntaxError "<html>502</html>")
  /\ forall r, run (invoke c) w <> Normal r.
Proof.
  intros c w.
  assert (Hfail : transport_failure
                    (Fetch.Response (Fetch.NotJson "<html>502</html>"))
                    (JsonSyntaxError "<html>502</html>")) by constructor.
  assert (Hreply : next_reply w
                     (Fetch.Response (Fetch.NotJson "<html>502</html>")))
    by (intro req; reflexivity).
  split; [exact Hfail | split; [exact Hreply |]].
  exact (@transport_faults_propagate c w _ _ Hfail Hreply).
Defined.

(** X8: a normalised object comes back only when the remote answered with
    a body that parses as JSON. *)
Lemma normal_only_for_json (c : endpoint_call) (w : world (receiver c))
  (reply : Fetch.reply) (r : value) :
  next_reply w reply ->
  run (invoke c) w = Normal r ->
  exists data, reply = Fetch.Response (Fetch.Json data).
Proof.
  intros Hreply Hrun.
  destruct reply as [why | [text | data]]; [| | now exists data].
  - rewrite (transport_fault_thrown c (tf_unreachable why) Hreply) in Hrun.
    discriminate Hrun.
  - rewrite (transport_fault_thrown c (tf_malformed text) Hreply) in Hrun.
    discriminate Hrun.
Qed.

(* ------------------------------------------------------------------ *)
(** ** The client over its lifetime *)

(** C7: a client constructed with token [t] sends
    [Authorization: "Bearer " + t] (just ["Bearer "] for a missing or empty
    token) on every request of every method, and no method changes the
    client's base URL or headers, however many calls are made. *)
Theorem bearer_header_on_every_request (token : option string)
  (ms : list method_call)
  (service : list Fetch.request -> Fetch.request -> Fetch.reply) :
  let client := PrintfulAcountClient.constructor (auth_value token) in
  let w := session ms (start client service) in
  this w = client
  /\ PrintfulAcountClient.origin (this w) = "https://api.printful.com"
  /\ PrintfulAcountClient.headers (this w) = {| Authorization := bearer token |}
  /\ Forall (fun r => Fetch.headers (Fetch.options r)
                      = {| Authorization := bearer token |})
            (sent w).
Proof.
  intros client w.
  assert (Hh : PrintfulAcountClient.headers client
               = {| Authorization := bearer token |}).
  { generalize (constructor_headers token). fold client.
    destruct (PrintfulAcountClient.headers client) as [a]. cbn.
    now intros ->. }
  destruct (@session_invariant
              (fun r => Fetch.headers (Fetch.options r)
                        = {| Authorization := bearer token |})
              ms (start client service)) as [Hthis Hsent].
  - intros m w' Hw'. cbn [start this] in Hw'.
    destruct m as [c | name].
    + cbn [call_method]. rewrite <- Hh, <- Hw'.
      apply account_request_headers.
    + cbn. unfold issued. cbn. rewrite skipn_all. constructor.
  - constructor.
  - fold w in Hthis, Hsent. cbn [start this] in Hthis.
    rewrite Hthis. repeat split; assumption || reflexivity.
Qed.

(** An empty token gives the header ["Bearer "] as well. *)
Example bearer_of_empty_token : bearer (Some "") = bearer None.
Proof. reflexivity. Qed.

(** C8: a GET-style read called twice with the same arguments, the remote
    answering the second request as it answered the first, returns the same
    result twice. *)
Theorem reads_are_idempotent (c : endpoint_call) (w : world (receiver c)) :
  is_read c = true ->
  (forall req,
      remote (after (invoke c) w) (sent (after (invoke c) w)) req
      = remote w (sent w) req) ->
  run (invoke c) (after (invoke c) w) = run (invoke c) w.
Proof.
  intros _ Hsame.
  apply run_ext; [| exact Hsame].
  now destruct (invoke_frame c w) as [Hthis _].
Qed.

Lemma reads_are_idempotent_witness :
  let c := OnAccount (GetSyncProduct (JNum 999)) in
  let w := start sample_client (mock_json envelope_404) in
  is_read c = true
  /\ (forall req,
         remote (after (invoke c) w) (sent (after (invoke c) w)) req
         = remote w (sent w) req)
  /\ run (invoke c) (after (invoke c) w) = run (invoke c) w.
Proof.
  intros c w.
  assert (Hread : is_read c = true) by reflexivity.
  assert (Hsame : forall req,
             remote (after (invoke c) w) (sent (after (invoke c) w)) req
             = remote w (sent w) req) by (intro req; reflexivity).
  split; [exact Hread | split; [exact Hsame |]].
  exact (@reads_are_idempotent c w Hread Hsame).
Defined.

(* ------------------------------------------------------------------ *)
(** ** Optional parameters *)

Lemma absent_falsy (e : value) : absent e -> JS.truthy e = false.
Proof. intros [-> | ->]; reflexivity. Qed.

Lemma absent_category (e : value) :
  absent e -> JS.truthy (JS.default_param e (JStr "")) = false.
Proof. intros [-> | ->]; reflexivity. Qed.

(** C9: an optional query parameter whose argument is empty or undefined
    ([category_id] of [getSyncProducts]; [orientation] and [technique] of
    [getProductVariantPrintFiles] and [getLayoutTemplates]) does not appear
    in the query string at all: the URL is the one built from the other
    parameters alone. *)
Theorem empty_optional_parameters_are_omitted (e : value) :
  absent e ->
  (forall offset limit (w : world PrintfulAcountClient.t),
      urls (invoke (OnAccount (GetSyncProducts offset limit e))) w
      = [PrintfulAcountClient.origin (this w) ++ "/store/products?offset="
         ++ JS.to_string (JS.default_param offset (JNum 0)) ++ "&limit="
         ++ JS.to_string (JS.default_param limit (JNum 20))])
  /\ (forall id technique (w : world MockupGeneratorAPI.t),
         urls (invoke (OnMockup (GetProductVariantPrintFiles id e technique)))
              w
         = [GenericAPI.origin (this w) ++ "/mockup-generator/printfiles/"
            ++ JS.to_string id ++ "?"
            ++ URLSearchParams.toString
                 (URLSearchParams.append_if_truthy "technique" technique
                    (URLSearchParams.create []))])
  /\ (forall id orientation (w : world MockupGeneratorAPI.t),
         urls (invoke (OnMockup (GetProductVariantPrintFiles id orientation e)))
              w
         = [GenericAPI.origin (this w) ++ "/mockup-generator/printfiles/"
            ++ JS.to_string id ++ "?"
            ++ URLSearchParams.toString
                 (URLSearchParams.append_if_truthy "orientation" orientation
                    (URLSearchParams.create []))])
  /\ (forall id technique (w : world MockupGeneratorAPI.t),
         urls (invoke (OnMockup (GetLayoutTemplates id e technique))) w
         = [GenericAPI.origin (this w) ++ "/mockup-generator/templates/"
            ++ JS.to_string id ++ "?"
            ++ URLSearchParams.toString
                 (URLSearchParams.append_if_truthy "technique" technique
                    (URLSearchParams.create []))])
  /\ (forall id orientation (w : world MockupGeneratorAPI.t),
         urls (invoke (OnMockup (GetLayoutTemplates id orientation e))) w
         = [GenericAPI.origin (this w) ++ "/mockup-generator/templates/"
            ++ JS.to_string id ++ "?"
            ++ URLSearchParams.toString
                 (URLSearchParams.append_if_truthy "orientation" orientation
                    (URLSearchParams.create []))]).
Proof.
  intros He.
  pose proof (absent_falsy He) as Hfalsy.
  pose proof (absent_category He) as Hcat.
  repeat split; intros; cbn [invoke account_invoke mockup_invoke receiver];
    to_request; unfold URLSearchParams.append_if_truthy;
    rewrite ?Hcat, ?Hfalsy; rewrite ?append_assoc, ?append_nil_r;
    reflexivity.
Qed.

Lemma empty_optional_parameters_are_omitted_witness :
  absent (JStr "")
  /\ urls (invoke (OnAccount (GetSyncProducts (JNum 0) (JNum 20) (JStr ""))))
          (start sample_client (mock_json envelope_200))
     = ["https://api.printful.com/store/products?offset=0&limit=20"]
  /\ urls (invoke (OnMockup (GetProductVariantPrintFiles
                               (JNum 71) (JStr "") (JStr "DTG"))))
          (start sample_mockups (mock_json envelope_200))
     = ["https://api.printful.com/mockup-generator/printfiles/71?technique=DTG"]
  /\ urls (invoke (OnMockup (GetLayoutTemplates
                               (JNum 71) (JStr "vertical") (JStr ""))))
          (start sample_mockups (mock_json envelope_200))
     = ["https://api.printful.com/mockup-generator/templates/71?orientation=vertical"].
Proof.
  assert (He : absent (JStr "")) by (right; reflexivity).
  destruct (@empty_optional_parameters_are_omitted (JStr "") He)
    as (Hproducts & Hfiles & _ & _ & Htemplates).
  split; [exact He |].
  split; [exact (Hproducts (JNum 0) (JNum 20) _) |].
  split; [exact (Hfiles (JNum 71) (JStr "DTG") _) |].
  exact (Htemplates (JNum 71) (JStr "vertical") _).
Defined.

(** [getOrders] is the call site that does otherwise: a missing [status]
    is sent as the text [undefined]. *)
Example getOrders_sends_missing_status :
  urls (PrintfulAcountClient.getOrders JUndefined JUndefined JUndefined)
       (start sample_client (mock_json envelope_200))
  = ["https://api.printful.com/orders?offset=0&limit=20&status=undefined"].
Proof. reflexivity. Qed.

(** C10: [getProductVariantPrintFiles] called without an id still issues
    its request; the path segment of the id reads [undefined]. *)
Theorem printfiles_without_id (orientation technique : value)
  (w : world MockupGeneratorAPI.t) :
  exists r,
    issued (invoke (OnMockup (GetProductVariantPrintFiles
                                JUndefined orientation technique))) w = [r]
    /\ Fetch.verb r = "GET"
    /\ Fetch.url r
       = GenericAPI.origin (this w)
         ++ "/mockup-generator/printfiles/undefined?"
         ++ URLSearchParams.toString
              (URLSearchParams.append_if_truthy "technique" technique
                 (URLSearchParams.append_if_truthy "orientation" orientation
                    (URLSearchParams.create []))).
Proof.
  cbn [invoke mockup_invoke receiver].
  unfold_methods; unfold_effects; cbn beta iota; split_reply;
    cbn [this remote sent snd fst]; rewrite skipn_log;
    (eexists; split; [reflexivity |]); (split; [reflexivity |]);
    cbn [Fetch.url]; unfold JS.concat; cbn [JS.to_string];
    rewrite ?append_assoc; reflexivity.
Qed.

Example printfiles_without_id_example :
  urls (MockupGeneratorAPI.getProductVariantPrintFiles
          JUndefined (JStr "horizontal") JUndefined)
       (start sample_mockups (mock_json envelope_200))
  = ["https://api.printful.com/mockup-generator/printfiles/undefined?orientation=horizontal"].
Proof. reflexivity. Qed.

(* ------------------------------------------------------------------ *)
(** ** Further properties: one call, one request *)

Lemma issued_singleton (c : endpoint_call) (w : world (receiver c)) :
  exists r, issued (invoke c) w = [r].
Proof.
  destruct (invoke_frame c w) as (_ & _ & r & Hs).
  exists r. unfold issued. rewrite Hs. apply skipn_log.
Qed.

(** X1: every implemented method issues exactly one request per call,
    whatever the remote answers (no retry, and no call answered without
    asking). *)
Theorem one_request_per_call (c : endpoint_call) (w : world (receiver c)) :
  List.length (issued (invoke c) w) = 1%nat
  /\ sent (after (invoke c) w) = (sent w ++ issued (invoke c) w)%list.
Proof.
  destruct (issued_singleton c w) as [r Hr].
  destruct (invoke_frame c w) as (_ & _ & r' & Hs).
  rewrite Hr. split; [reflexivity |].
  unfold issued in Hr. rewrite Hs, skipn_log in Hr.
  injection Hr as <-. exact Hs.
Qed.

(** X2: over a session the log only grows at its end, by one request per
    implemented call and by none per stub. *)
Theorem session_log_growth (ms : list method_call)
  (w : world PrintfulAcountClient.t) :
  exists added,
    sent (session ms w) = (sent w ++ added)%list
    /\ List.length added = count_implemented ms.
Proof.
  revert w. induction ms as [| m rest IH]; intro w; cbn [session].
  - exists []. split; [now rewrite app_nil_r | reflexivity].
  - destruct (IH (after (call_method m) w)) as (added & Hs & Hn).
    destruct (call_method_frame m w) as [_ Hm].
    exists (issued (call_method m) w ++ added)%list. split.
    + rewrite Hs, Hm, app_assoc. reflexivity.
    + rewrite length_app, Hn. unfold count_implemented.
      destruct m as [c | name]; cbn [filter is_implemented List.length].
      * destruct (issued_singleton (OnAccount c) w) as [r Hr].
        cbn [invoke receiver call_method] in *. now rewrite Hr.
      * cbn. unfold issued. cbn. now rewrite skipn_all.
Qed.

(* ------------------------------------------------------------------ *)
(** ** Further properties: envelopes at the edges *)

(** X3: a body that parses as JSON [null] makes every method throw a
    TypeError, where it destructures the envelope; nothing is returned. *)
Theorem null_body_is_type_error (c : endpoint_call) (w : world (receiver c))
  (data : value) :
  next_reply w (Fetch.Response (Fetch.Json data)) ->
  JS.object_coercible data = false ->
  run (invoke c) w = Throw TypeError.
Proof.
  intros Hreply Hnull.
  each_method c; unfold_methods; unfold_effects; cbn beta iota;
    rewrite (Hreply _); cbn beta iota; rewrite Hnull; reflexivity.
Qed.

Lemma null_body_is_type_error_witness :
  let c := OnAccount (GetSyncProducts (JNum 0) (JNum 20) JUndefined) in
  let w := start sample_client (mock_json body_null) in
  next_reply w (Fetch.Response (Fetch.Json body_null))
  /\ JS.object_coercible body_null = false
  /\ run (invoke c) w = Throw TypeError.
Proof.
  intros c w.
  assert (Hreply : next_reply w (Fetch.Response (Fetch.Json body_null)))
    by (intro req; reflexivity).
  assert (Hnull : JS.object_coercible body_null = false) by reflexivity.
  split; [exact Hreply | split; [exact Hnull |]].
  exact (@null_body_is_type_error c w body_null Hreply Hnull).
Defined.

(** X4: the three methods that take [result] apart ([getSyncProduct],
    [getProductTemplates], [deleteProductTemplate]) throw a TypeError on an
    envelope whose code is below 400 and whose [result] is missing or
    [null]. *)
Theorem missing_result_is_type_error (c : endpoint_call)
  (w : world (receiver c)) (data : value) (code : Z) :
  destructures_result c = true ->
  next_reply w (Fetch.Response (Fetch.Json data)) ->
  JS.get data "code" = JNum code ->
  code < 400 ->
  JS.object_coercible (JS.get data "result") = false ->
  run (invoke c) w = Throw TypeError.
Proof.
  intros Hc Hreply Hcode Hlt Hres.
  each_method c; try discriminate Hc; with_envelope Hreply Hcode;
    success_branch Hlt; rewrite Hres; reflexivity.
Qed.

Lemma missing_result_is_type_error_witness :
  let c := OnAccount (GetSyncProduct (JNum 5)) in
  let w := start sample_client (mock_json envelope_without_result) in
  destructures_result c = true
  /\ next_reply w (Fetch.Response (Fetch.Json envelope_without_result))
  /\ JS.get envelope_without_result "code" = JNum 200
  /\ 200 < 400
  /\ JS.object_coercible (JS.get envelope_without_result "result") = false
  /\ run (invoke c) w = Throw TypeError.
Proof.
  intros c w.
  assert (Hc : destructures_result c = true) by reflexivity.
  assert (Hreply : next_reply w
             (Fetch.Response (Fetch.Json envelope_without_result)))
    by (intro req; reflexivity).
  assert (Hcode : JS.get envelope_without_result "code" = JNum 200)
    by reflexivity.
  assert (Hlt : 200 < 400) by lia.
  assert (Hres : JS.object_coercible
                   (JS.get envelope_without_result "result") = false)
    by reflexivity.
  repeat (split; [assumption |]).
  exact (@missing_result_is_type_error c w envelope_without_result 200
           Hc Hreply Hcode Hlt Hres).
Defined.

(** X5: the failure branch is taken only when [code >= 400] holds, so an
    envelope without a [code] member is treated as a success: each method
    does with it exactly what it does with an envelope that has the same
    [result], [paging] and [error] and a code below 400. *)
Theorem missing_code_is_success (c : endpoint_call)
  (w1 w2 : world (receiver c)) (d1 d2 : value) (code : Z) :
  next_reply w1 (Fetch.Response (Fetch.Json d1)) ->
  next_reply w2 (Fetch.Response (Fetch.Json d2)) ->
  JS.object_coercible d1 = true ->
  JS.get d1 "code" = JUndefined ->
  JS.get d2 "code" = JNum code ->
  code < 400 ->
  JS.get d1 "result" = JS.get d2 "result" ->
  JS.get d1 "paging" = JS.get d2 "paging" ->
  JS.get d1 "error" = JS.get d2 "error" ->
  run (invoke c) w1 = run (invoke c) w2.
Proof.
  intros Hr1 Hr2 Hobj Hc1 Hc2 Hlt Hres Hpag Herr.
  each_method c; unfold_methods; unfold_effects; cbn beta iota;
    rewrite (Hr1 _), (Hr2 _); cbn beta iota;
    rewrite Hobj, (code_of_object _ Hc2); cbn beta iota;
    rewrite Hc1, Hc2, ge_number, (proj2 (Z.leb_gt 400 code) Hlt);
    change (JS.ge JUndefined 400) with false; cbn beta iota;
    rewrite ?Hres, ?Hpag, ?Herr; split_reply; reflexivity.
Qed.

Lemma missing_code_is_success_witness :
  let c := OnAccount (GetSyncProducts (JNum 0) (JNum 20) JUndefined) in
  let w1 := start sample_client (mock_json envelope_without_code) in
  let w2 := start sample_client (mock_json envelope_200) in
  next_reply w1 (Fetch.Response (Fetch.Json envelope_without_code))
  /\ next_reply w2 (Fetch.Response (Fetch.Json envelope_200))
  /\ JS.object_coercible envelope_without_code = true
  /\ JS.get envelope_without_code "code" = JUndefined
  /\ JS.get envelope_200 "code" = JNum 200
  /\ 200 < 400
  /\ JS.get envelope_without_code "result" = JS.get envelope_200 "result"
  /\ JS.get envelope_without_code "paging" = JS.get envelope_200 "paging"
  /\ JS.get envelope_without_code "error" = JS.get envelope_200 "error"
  /\ run (invoke c) w1 = run (invoke c) w2.
Proof.
  intros c w1 w2.
  assert (Hr1 : next_reply w1
                  (Fetch.Response (Fetch.Json envelope_without_code)))
    by (intro req; reflexivity).
  assert (Hr2 : next_reply w2 (Fetch.Response (Fetch.Json envelope_200)))
    by (intro req; reflexivity).
  assert (Hobj : JS.object_coercible envelope_without_code = true)
    by reflexivity.
  assert (Hc1 : JS.get envelope_without_code "code" = JUndefined)
    by reflexivity.
  assert (Hc2 : JS.get envelope_200 "code" = JNum 200) by reflexivity.
  assert (Hlt : 200 < 400) by lia.
  assert (Hres : JS.get envelope_without_code "result"
                 = JS.get envelope_200 "result") by reflexivity.
  assert (Hpag : JS.get envelope_without_code "paging"
                 = JS.get envelope_200 "paging") by reflexivity.
  assert (Herr : JS.get envelope_without_code "error"
                 = JS.get envelope_200 "error") by reflexivity.
  repeat (split; [assumption |]).
  exact (@missing_code_is_success c w1 w2 envelope_without_code envelope_200
           200 Hr1 Hr2 Hobj Hc1 Hc2 Hlt Hres Hpag Herr).
Defined.

(** X6: on a failure the returned object depends on the arguments of the
    call and on the envelope's [error] alone: not on its [result] or
    [paging], not on the exact code, not on the receiver. *)
Theorem failure_result_ignores_the_rest (c : endpoint_call)
  (w1 w2 : world (receiver c)) (d1 d2 : value) (k1 k2 : Z) :
  next_reply w1 (Fetch.Response (Fetch.Json d1)) ->
  next_reply w2 (Fetch.Response (Fetch.Json d2)) ->
  JS.get d1 "code" = JNum k1 -> 400 <= k1 ->
  JS.get d2 "code" = JNum k2 -> 400 <= k2 ->
  JS.get d1 "error" = JS.get d2 "error" ->
  run (invoke c) w1 = run (invoke c) w2.
Proof.
  intros Hr1 Hr2 Hc1 Hk1 Hc2 Hk2 Herr.
  each_method c; unfold_methods; unfold_effects; cbn beta iota;
    rewrite (Hr1 _), (Hr2 _); cbn beta iota;
    rewrite (code_of_object _ Hc1), (code_of_object _ Hc2); cbn beta iota;
    rewrite Hc1, Hc2, !ge_number,
      (proj2 (Z.leb_le 400 k1) Hk1), (proj2 (Z.leb_le 400 k2) Hk2);
    cbn beta iota; rewrite Herr; reflexivity.
Qed.

Lemma failure_result_ignores_the_rest_witness :
  let c := OnAccount (GetSyncProducts (JNum 0) (JNum 20) JUndefined) in
  let w1 := start sample_client (mock_json envelope_404) in
  let w2 := start (createPrintfulAcountClient JUndefined)
                  (mock_json envelope_500) in
  next_reply w1 (Fetch.Response (Fetch.Json envelope_404))
  /\ next_reply w2 (Fetch.Response (Fetch.Json envelope_500))
  /\ JS.get envelope_404 "code" = JNum 404 /\ 400 <= 404
  /\ JS.get envelope_500 "code" = JNum 500 /\ 400 <= 500
  /\ JS.get envelope_404 "error" = JS.get envelope_500 "error"
  /\ run (invoke c) w1 = run (invoke c) w2.
Proof.
  intros c w1 w2.
  assert (Hr1 : next_reply w1 (Fetch.Response (Fetch.Json envelope_404)))
    by (intro req; reflexivity).
  assert (Hr2 : next_reply w2 (Fetch.Response (Fetch.Json envelope_500)))
    by (intro req; reflexivity).
  assert (Hc1 : JS.get envelope_404 "code" = JNum 404) by reflexivity.
  assert (Hk1 : 400 <= 404) by lia.
  assert (Hc2 : JS.get envelope_500 "code" = JNum 500) by reflexivity.
  assert (Hk2 : 400 <= 500) by lia.
  assert (He : JS.get envelope_404 "error" = JS.get envelope_500 "error")
    by reflexivity.
  repeat (split; [assumption |]).
  exact (@failure_result_ignores_the_rest c w1 w2 envelope_404 envelope_500
           404 500 Hr1 Hr2 Hc1 Hk1 Hc2 Hk2 He).
Defined.

(* ------------------------------------------------------------------ *)
(** ** Further properties: what a request carries *)

Lemma id_rendered_verbatim_witness :
  let c := OnAccount (GetSyncProduct (JStr "@ext-1")) in
  let w := start sample_client (mock_json envelope_200) in
  id_route c "/store/products/" (JStr "@ext-1") ""
  /\ typed_id (JStr "@ext-1") = true
  /\ is_createSyncVariant c = false
  /\ urls (invoke c) w = ["https://api.printful.com/store/products/@ext-1"].
Proof.
  intros c w.
  assert (Hroute : id_route c "/store/products/" (JStr "@ext-1") "")
    by constructor.
  assert (Hid : typed_id (JStr "@ext-1") = true) by reflexivity.
  assert (Hc : is_createSyncVariant c = false) by reflexivity.
  split; [exact Hroute | split; [exact Hid | split; [exact Hc |]]].
  exact (@id_rendered_verbatim c _ _ _ w Hroute Hid Hc).
Defined.

Lemma normal_only_for_json_witness :
  let c := OnAccount (GetSyncProducts (JNum 0) (JNum 20) JUndefined) in
  let w := start sample_client (mock_json envelope_200) in
  let r := obj [("products", JArr [obj [("id", JNum 1)]]);
                ("paging", sample_paging); ("error", obj [])] in
  next_reply w (Fetch.Response (Fetch.Json envelope_200))
  /\ run (invoke c) w = Normal r
  /\ exists data,
       Fetch.Response (Fetch.Json envelope_200)
       = Fetch.Response (Fetch.Json data).
Proof.
  intros c w r.
  assert (Hreply : next_reply w (Fetch.Response (Fetch.Json envelope_200)))
    by (intro req; reflexivity).
  assert (Hrun : run (invoke c) w = Normal r) by reflexivity.
  split; [exact Hreply | split; [exact Hrun |]].
  exact (@normal_only_for_json c w _ r Hreply Hrun).
Defined.

(** X9: a request sent as GET or DELETE never carries a body. *)
Theorem reads_and_deletes_send_no_body (c : endpoint_call)
  (w : world (receiver c)) :
  Forall (fun r => Fetch.verb r = "GET" \/ Fetch.verb r = "DELETE" ->
                   Fetch.body (Fetch.options r) = None)
         (issued (invoke c) w).
Proof.
  each_method c; unfold_methods; unfold_effects; cbn beta iota; split_reply;
    cbn [this remote sent snd fst]; rewrite skipn_log;
    (constructor; [| constructor]); cbn;
    intros [H | H]; reflexivity || discriminate H.
Qed.

Lemma stringify_none_iff (v : value) :
  Wire.stringify v = None <-> v = JUndefined.
Proof.
  split; [| now intros ->].
  destruct v as [| | [] | | | |]; cbn; intro H;
    reflexivity || discriminate H.
Qed.

(** X10: a method that sends a body sends the JSON text of its body
    argument, so the body is left out exactly when that argument is
    [undefined] (never for the two methods that wrap their arguments in an
    object). *)
Theorem body_is_the_json_of_the_argument (c : endpoint_call)
  (w : world (receiver c)) (v : value) :
  request_body c v ->
  exists r,
    issued (invoke c) w = [r]
    /\ Fetch.body (Fetch.options r) = Wire.stringify v
    /\ (Fetch.body (Fetch.options r) = None <-> v = JUndefined).
Proof.
  intros Hbody.
  destruct Hbody; cbn [receiver] in *;
    unfold_methods; unfold_effects; cbn beta iota; split_reply;
    cbn [this remote sent snd fst]; rewrite skipn_log;
    (eexists; split; [reflexivity |]);
    cbn [Fetch.options Fetch.body];
    (split; [reflexivity | apply stringify_none_iff]).
Qed.

Lemma body_is_the_json_of_the_argument_witness :
  let c := OnAccount (ModifySyncVariant (JNum 9) JUndefined) in
  let w := start sample_client (mock_json envelope_200) in
  request_body c JUndefined
  /\ exists r,
       issued (invoke c) w = [r]
       /\ Fetch.body (Fetch.options r) = Wire.stringify JUndefined
       /\ (Fetch.body (Fetch.options r) = None <-> JUndefined = JUndefined).
Proof.
  intros c w.
  assert (Hbody : request_body c JUndefined) by constructor.
  split; [exact Hbody |].
  exact (@body_is_the_json_of_the_argument c w JUndefined Hbody).
Defined.

(* ------------------------------------------------------------------ *)
(** ** Further properties: query strings *)





Lemma task_url (task_key : value) (w : world MockupGeneratorAPI.t) :
  urls (MockupGeneratorAPI.getMockupTaskResult task_key) w
  = [GenericAPI.origin (this w) ++ "/mockup-generator/task?task_key="
     ++ Wire.form_encode (JS.to_string task_key)].
Proof.
  to_request; rewrite ?append_assoc; reflexivity.
Qed.

Lemma printfiles_url (id orientation technique : value)
  (w : world MockupGeneratorAPI.t) :
  urls (MockupGeneratorAPI.getProductVariantPrintFiles
          id orientation technique) w
  = [GenericAPI.origin (this w) ++ "/mockup-generator/printfiles/"
     ++ JS.to_string id ++ "?"
     ++ URLSearchParams.toString
          (URLSearchParams.append_if_truthy "technique" technique
             (URLSearchParams.append_if_truthy "orientation" orientation
                (URLSearchParams.create [])))].
Proof.
  to_request; rewrite ?append_assoc; reflexivity.
Qed.

Lemma templates_url (id orientation technique : value)
  (w : world MockupGeneratorAPI.t) :
  urls (MockupGeneratorAPI.getLayoutTemplates id orientation technique) w
  = [GenericAPI.origin (this w) ++ "/mockup-generator/templates/"
     ++ JS.to_string id ++ "?"
     ++ URLSearchParams.toString
          (URLSearchParams.append_if_truthy "technique" technique
             (URLSearchParams.append_if_truthy "orientation" orientation
                (URLSearchParams.create [])))].
Proof.
  to_request; rewrite ?append_assoc; reflexivity.
Qed.


Lemma form_decode_encode_byte (c : ascii) (t : string) :
  form_decode (Wire.form_encode_byte c ++ t) = String c (form_decode t).
Proof.
  destruct c as [[] [] [] [] [] [] [] []]; reflexivity.
Qed.

Lemma form_decode_encode (s : string) :
  form_decode (Wire.form_encode s) = s.
Proof.
  induction s as [|c s IH]; cbn [Wire.form_encode]; [reflexivity |].
  now rewrite form_decode_encode_byte, IH.
Qed.

Lemma append_inj_l (a x y : string) : a ++ x = a ++ y -> x = y.
Proof.
  induction a as [|c a IH]; cbn; intro H; [exact H |].
  injection H as H. exact (IH H).
Qed.

(** X12: the encoding of the task key loses nothing: two different task
    keys are never requested under the same URL. *)
Theorem task_urls_are_distinct (k1 k2 : string)
  (w : world MockupGeneratorAPI.t) :
  k1 <> k2 ->
  urls (invoke (OnMockup (GetMockupTaskResult (JStr k1)))) w
  <> urls (invoke (OnMockup (GetMockupTaskResult (JStr k2)))) w.
Proof.
  intros Hne Heq. apply Hne.
  cbn [invoke mockup_invoke receiver] in Heq.
  rewrite !task_url in Heq. cbn [JS.to_string] in Heq.
  injection Heq as Heq.
  apply append_inj_l in Heq.
  apply (@append_inj_l "/mockup-generator/task?task_key=") in Heq.
  apply (f_equal form_decode) in Heq.
  now rewrite !form_decode_encode in Heq.
Qed.

Lemma task_urls_are_distinct_witness :
  let w := start sample_mockups (mock_json envelope_200) in
  "a b" <> "a+b"
  /\ urls (invoke (OnMockup (GetMockupTaskResult (JStr "a b")))) w
     <> urls (invoke (OnMockup (GetMockupTaskResult (JStr "a+b")))) w.
Proof.
  intros w.
  assert (Hne : "a b" <> "a+b") by discriminate.
  split; [exact Hne |].
  exact (@task_urls_are_distinct "a b" "a+b" w Hne).
Defined.

(** X13: [getSyncProducts] builds its query by plain concatenation: a
    [category_id] that is given reaches the URL as it is, unencoded. *)
Theorem category_id_is_not_encoded (offset limit category_id : value)
  (w : world PrintfulAcountClient.t) :
  JS.truthy category_id = true ->
  urls (invoke (OnAccount (GetSyncProducts offset limit category_id))) w
  = [PrintfulAcountClient.origin (this w) ++ "/store/products?offset="
     ++ JS.to_string (JS.default_param offset (JNum 0)) ++ "&limit="
     ++ JS.to_string (JS.default_param limit (JNum 20))
     ++ "&category_id=" ++ JS.to_string category_id].
Proof.
  intros Htrue.
  assert (Hdef : JS.default_param category_id (JStr "") = category_id)
    by (destruct category_id; reflexivity || discriminate Htrue).
  cbn [invoke account_invoke receiver].
  to_request; rewrite Hdef, Htrue; rewrite ?append_assoc; reflexivity.
Qed.

Lemma category_id_is_not_encoded_witness :
  let w := start sample_client (mock_json envelope_200) in
  JS.truthy (JStr "24,55&limit=100") = true
  /\ urls (invoke (OnAccount (GetSyncProducts (JNum 0) (JNum 20)
                                (JStr "24,55&limit=100")))) w
     = ["https://api.printful.com/store/products?offset=0&limit=20&category_id=24,55&limit=100"].
Proof.
  intros w.
  assert (Htrue : JS.truthy (JStr "24,55&limit=100") = true) by reflexivity.
  split; [exact Htrue |].
  exact (@category_id_is_not_encoded (JNum 0) (JNum 20) _ w Htrue).
Defined.

(** X14: when both optional parameters of [getProductVariantPrintFiles]
    or [getLayoutTemplates] are given, the query holds both, [orientation]
    before [technique], each form-encoded. *)
Theorem optional_parameters_in_order (id orientation technique : value)
  (w : world MockupGeneratorAPI.t) :
  JS.truthy orientation = true ->
  JS.truthy technique = true ->
  urls (invoke (OnMockup (GetProductVariantPrintFiles
                            id orientation technique))) w
  = [GenericAPI.origin (this w) ++ "/mockup-generator/printfiles/"
     ++ JS.to_string id ++ "?orientation="
     ++ Wire.form_encode (JS.to_string orientation) ++ "&technique="
     ++ Wire.form_encode (JS.to_string technique)]
  /\ urls (invoke (OnMockup (GetLayoutTemplates id orientation technique))) w
     = [GenericAPI.origin (this w) ++ "/mockup-generator/templates/"
        ++ JS.to_string id ++ "?orientation="
        ++ Wire.form_encode (JS.to_string orientation) ++ "&technique="
        ++ Wire.form_encode (JS.to_string technique)].
Proof.
  intros Ho Ht. cbn [invoke mockup_invoke receiver].
  rewrite printfiles_url, templates_url.
  unfold URLSearchParams.append_if_truthy. rewrite Ho, Ht.
  cbn. rewrite ?append_assoc. split; reflexivity.
Qed.

Lemma optional_parameters_in_order_witness :
  let w := start sample_mockups (mock_json envelope_200) in
  JS.truthy (JStr "horizontal") = true
  /\ JS.truthy (JStr "DTG & more") = true
  /\ urls (invoke (OnMockup (GetProductVariantPrintFiles
                               (JNum 71) (JStr "horizontal")
                               (JStr "DTG & more")))) w
     = ["https://api.printful.com/mockup-generator/printfiles/71?orientation=horizontal&technique=DTG+%26+more"]
  /\ urls (invoke (OnMockup (GetLayoutTemplates
                               (JNum 71) (JStr "horizontal")
                               (JStr "DTG & more")))) w
     = ["https://api.printful.com/mockup-generator/templates/71?orientation=horizontal&technique=DTG+%26+more"].
Proof.
  intros w.
  assert (Ho : JS.truthy (JStr "horizontal") = true) by reflexivity.
  assert (Ht : JS.truthy (JStr "DTG & more") = true) by reflexivity.
  split; [exact Ho | split; [exact Ht |]].
  exact (@optional_parameters_in_order (JNum 71) _ _ w Ho Ht).
Defined.

(* ------------------------------------------------------------------ *)
(** ** Further properties: where requests go *)

Lemma account_url_prefix (c : account_call)
  (w : world PrintfulAcountClient.t) :
  Forall (fun r => String.prefix (PrintfulAcountClient.origin (this w))
                                 (Fetch.url r) = true)
         (issued (account_invoke c) w).
Proof.
  destruct c; unfold_methods; unfold_effects; cbn beta iota; split_reply;
    cbn [this remote sent snd fst]; rewrite skipn_log;
    (constructor; [| constructor]); cbn [Fetch.url]; unfold JS.concat;
    rewrite ?append_assoc; apply prefix_append.
Qed.

Lemma mockup_url_prefix (c : mockup_call) (w : world MockupGeneratorAPI.t) :
  Forall (fun r => String.prefix (GenericAPI.origin (this w))
                                 (Fetch.url r) = true)
         (issued (mockup_invoke c) w).
Proof.
  destruct c; unfold_methods; unfold_effects; cbn beta iota; split_reply;
    cbn [this remote sent snd fst]; rewrite skipn_log;
    (constructor; [| constructor]); cbn [Fetch.url]; unfold JS.concat;
    rewrite ?append_assoc; apply prefix_append.
Qed.

(** X15: whatever the token and whatever is called, in whatever order,
    every request of an account client goes to a URL that starts with
    [https://api.printful.com]. *)
Theorem requests_stay_on_the_origin (auth : value) (ms : list method_call)
  (service : list Fetch.request -> Fetch.request -> Fetch.reply) :
  Forall (fun r => String.prefix "https://api.printful.com" (Fetch.url r)
                   = true)
         (sent (session ms (start (createPrintfulAcountClient auth) service))).
Proof.
  apply session_invariant; [| constructor].
  intros m w' Hw'. destruct m as [c | name].
  - cbn [call_method].
    change "https://api.printful.com"
      with (PrintfulAcountClient.origin
              (this (start (createPrintfulAcountClient auth) service))).
    rewrite <- Hw'. apply account_url_prefix.
  - cbn. unfold issued. cbn. rewrite skipn_all. constructor.
Qed.

(** X16: a mockup generator area built over given headers and a given
    origin sends exactly these headers, to URLs under that origin. *)
Theorem mockup_requests_use_the_configuration (h : Headers) (o : string)
  (c : mockup_call)
  (service : list Fetch.request -> Fetch.request -> Fetch.reply)
  (log : list Fetch.request) :
  let w := {| this := MockupGeneratorAPI.constructor h o;
              remote := service; sent := log |} in
  Forall (fun r => Fetch.headers (Fetch.options r) = h
                   /\ String.prefix o (Fetch.url r) = true)
         (issued (invoke (OnMockup c)) w).
Proof.
  intros w. cbn [invoke receiver].
  pose proof (mockup_request_headers c w) as Hh.
  pose proof (mockup_url_prefix c w) as Hu.
  rewrite Forall_forall in *. intros r Hr. split; [exact (Hh r Hr) |].
  exact (Hu r Hr).
Qed.

Lemma success_contract_elsewhere_witness :
  let c := OnAccount (GetProductTemplates (JNum 0) (JNum 20)) in
  let w := start sample_client (mock_json envelope_templates) in
  is_createOrder c = false
  /\ next_reply w (Fetch.Response (Fetch.Json envelope_templates))
  /\ JS.get envelope_templates "code" = JNum 200
  /\ 200 < 400
  /\ (destructures_result c = true ->
      JS.object_coercible (JS.get envelope_templates "result") = true)
  /\ exists r,
       run (invoke c) w = Normal r
       /\ JS.get r "error" = no_error c
       /\ payload_names r = map fst (payload_shape c)
       /\ payload_fields r
          = handed_on c (JS.get envelope_templates "result").
Proof.
  intros c w.
  assert (Hc : is_createOrder c = false) by reflexivity.
  assert (Hreply : next_reply w
                     (Fetch.Response (Fetch.Json envelope_templates)))
    by (intro req; reflexivity).
  assert (Hcode : JS.get envelope_templates "code" = JNum 200)
    by reflexivity.
  assert (Hlt : 200 < 400) by lia.
  assert (Hres : destructures_result c = true ->
                 JS.object_coercible (JS.get envelope_templates "result")
                 = true) by (intros _; reflexivity).
  repeat (split; [assumption |]).
  exact (@success_contract_elsewhere c w envelope_templates 200
           Hc Hreply Hcode Hlt Hres).
Defined.
